(** * Orchestration controller of the PDF processing pipeline

    A shallow embedding of [run_pipeline.py]: the single-document
    orchestrator [process_single_pdf], the batch orchestrator
    [process_directory] and the dispatching entry point [main].

    The stage collaborators (extractor, batch extractor, entity recognizer,
    normalizer, storage sink), the file system and the clock are external to
    the script; they are the fields of an environment record over an
    abstract world.  The orchestrators are written in a state-and-exception
    monad that threads the world, the local counters of the batch loop and a
    trace recording every call the orchestrator makes together with its
    outcome. *)

From Stdlib Require Import ZArith List String Ascii Bool Lia PrimFloat.
Import ListNotations.
Open Scope string_scope.
Open Scope list_scope.
Open Scope Z_scope.

Set Implicit Arguments.
Set Warnings "-register-all".

(** ** Python values and exceptions *)

(** The JSON-like universe of values exchanged with the collaborators.  A
    dictionary keeps its insertion order, as Python's [dict] does. *)
Inductive pyval : Type :=
| PNone
| PBool (b : bool)
| PInt (z : Z)
| PFloat (f : float)
| PStr (s : string)
| PList (l : list pyval)
| PDict (d : list (string * pyval)).

(** [except Exception] catches the instances of [Exception] only;
    [KeyboardInterrupt], [SystemExit] and [GeneratorExit] derive from
    [BaseException] directly and pass through such a handler. *)
Inductive exn : Type :=
| PyException (cls : string) (detail : string)
| PyBaseException (cls : string).

Definition is_Exception (e : exn) : bool :=
  match e with
  | PyException _ _ => true
  | PyBaseException _ => false
  end.

Inductive res (A : Type) : Type :=
| Ret (a : A)
| Raise (e : exn).

Arguments Ret {A} a.
Arguments Raise {A} e.

Definition type_name (v : pyval) : string :=
  match v with
  | PNone => "NoneType"
  | PBool _ => "bool"
  | PInt _ => "int"
  | PFloat _ => "float"
  | PStr _ => "str"
  | PList _ => "list"
  | PDict _ => "dict"
  end.

Fixpoint assoc_get (k : string) (d : list (string * pyval)) : option pyval :=
  match d with
  | [] => None
  | (k', v) :: d' => if String.eqb k k' then Some v else assoc_get k d'
  end.

(** [v.get(k, default)] *)
Definition py_get (v : pyval) (k : string) (default : pyval) : res pyval :=
  match v with
  | PDict d =>
      match assoc_get k d with
      | Some x => Ret x
      | None => Ret default
      end
  | _ => Raise (PyException "AttributeError" "get")
  end.

(** [v[k]] for a string key *)
Definition py_getitem (v : pyval) (k : string) : res pyval :=
  match v with
  | PDict d =>
      match assoc_get k d with
      | Some x => Ret x
      | None => Raise (PyException "KeyError" k)
      end
  | _ => Raise (PyException "TypeError" (type_name v))
  end.

(** [len(v)]; a string is taken as the sequence of its characters. *)
Definition py_len (v : pyval) : res Z :=
  match v with
  | PStr s => Ret (Z.of_nat (String.length s))
  | PList l => Ret (Z.of_nat (List.length l))
  | PDict d => Ret (Z.of_nat (List.length d))
  | _ => Raise (PyException "TypeError" (type_name v))
  end.

(** [list(v.keys())] *)
Definition py_keys (v : pyval) : res pyval :=
  match v with
  | PDict d => Ret (PList (map (fun kv => PStr (fst kv)) d))
  | _ => Raise (PyException "AttributeError" "keys")
  end.

(** [v.values()] *)
Definition py_values (v : pyval) : res (list pyval) :=
  match v with
  | PDict d => Ret (map snd d)
  | _ => Raise (PyException "AttributeError" "values")
  end.

(** [sum(len(x) for x in vs)]: the generator is consumed from the left and
    the first element without a length raises. *)
Fixpoint py_sum_len (vs : list pyval) (acc : Z) : res Z :=
  match vs with
  | [] => Ret acc
  | v :: vs' =>
      match py_len v with
      | Ret n => py_sum_len vs' (acc + n)
      | Raise e => Raise e
      end
  end.

(** Truth value of an object in a condition. *)
Definition py_truthy (v : pyval) : bool :=
  match v with
  | PNone => false
  | PBool b => b
  | PInt z => negb (z =? 0)
  | PFloat f => negb (PrimFloat.eqb f 0%float)
  | PStr s => negb (String.eqb s "")
  | PList l => match l with [] => false | _ => true end
  | PDict d => match d with [] => false | _ => true end
  end.

(** ** Path and string helpers of the standard library *)

(** [s.rfind(c)]: index of the last occurrence, [-1] when absent. *)
Fixpoint rfind (c : ascii) (s : string) : Z :=
  match s with
  | EmptyString => -1
  | String a r =>
      let k := rfind c r in
      if 0 <=? k then k + 1
      else if Ascii.eqb a c then 0 else -1
  end.

(** [s[i:]] and [s[:i]] for [0 <= i]. *)
Definition slice_from (i : Z) (s : string) : string :=
  String.substring (Z.to_nat i) (String.length s - Z.to_nat i) s.

Definition slice_to (i : Z) (s : string) : string :=
  String.substring 0 (Z.to_nat i) s.

(** [os.path.basename] *)
Definition basename (p : string) : string :=
  slice_from (rfind "/" p + 1) p.

(** The scan of [os.path.splitext] for a character other than a dot among
    the positions [i, i + n) of [p]. *)
Fixpoint has_non_dot (p : string) (i n : nat) : bool :=
  match n with
  | O => false
  | S n' =>
      match String.get i p with
      | Some a => if Ascii.eqb a "." then has_non_dot p (S i) n' else true
      | None => false
      end
  end.

(** [os.path.splitext]: split at the last dot, unless that dot belongs to
    the leading dots of the last path component. *)
Definition splitext (p : string) : string * string :=
  let sepIndex := rfind "/" p in
  let dotIndex := rfind "." p in
  if sepIndex <? dotIndex then
    if has_non_dot p (Z.to_nat (sepIndex + 1))
         (Z.to_nat (dotIndex - (sepIndex + 1)))
    then (slice_to dotIndex p, slice_from dotIndex p)
    else (p, "")
  else (p, "").

Definition ends_with_slash (s : string) : bool :=
  match String.get (String.length s - 1) s with
  | Some a => Ascii.eqb a "/"
  | None => false
  end.

(** [os.path.join(a, b)] *)
Definition path_join (a b : string) : string :=
  match b with
  | String "/" _ => b
  | _ =>
      if (String.eqb a "" || ends_with_slash a)%bool then (a ++ b)%string
      else (a ++ "/" ++ b)%string
  end.

(** [s.lstrip("*")] *)
Fixpoint lstrip_star (s : string) : string :=
  match s with
  | String "*" r => lstrip_star r
  | _ => s
  end.

(** ** The environment of the script *)

(** What the script imports and calls: the operating system, the clock and
    the five stage collaborators.  Calls that only read (existence tests,
    [glob], loading a JSON file, the clock) leave the world as it is. *)
Record Env (world : Type) : Type := {
  os_makedirs : string -> world -> res unit * world;
  glob_glob : string -> world -> res (list string);
  os_path_exists : string -> world -> bool;
  os_path_isfile : string -> world -> bool;
  os_path_isdir : string -> world -> bool;
  json_load : string -> world -> res pyval;
  json_dump : string -> pyval -> bool -> world -> res unit * world;
  time_time : world -> float;
  process_pdf : string -> world -> res pyval * world;
  process_pdf_batch :
    string -> string -> Z -> string -> bool -> world -> res pyval * world;
  extract_entities : pyval -> option string -> world -> res pyval * world;
  process_extracted_data : pyval -> world -> res pyval * world;
  store_processed_data : pyval -> world -> res pyval * world
}.

(** One entry per call made by the orchestrator, with its arguments and its
    outcome. *)
Inductive event : Type :=
| EvMakedirs (path : string) (r : res unit)
| EvGlob (pattern : string) (r : res (list string))
| EvExists (path : string) (b : bool)
| EvIsfile (path : string) (b : bool)
| EvIsdir (path : string) (b : bool)
| EvLoad (path : string) (r : res pyval)
| EvDump (path : string) (v : pyval) (ensure_ascii : bool) (r : res unit)
| EvProcessPdf (pdf_path : string) (r : res pyval)
| EvProcessPdfBatch (input_dir output_dir : string) (max_workers : Z)
    (file_pattern : string) (save_results : bool) (r : res pyval)
| EvExtractEntities (pdf_info : pyval) (model_path : option string)
    (r : res pyval)
| EvProcessExtractedData (entities_data : pyval) (r : res pyval)
| EvStoreProcessedData (processed_data : pyval) (r : res pyval).

(** The counters of the batch loop. *)
Record locals : Type := {
  successful : Z;
  failed : Z;
  products_found : Z
}.

Record state (world : Type) : Type := {
  st_world : world;
  st_trace : list event;
  st_locals : locals
}.

Arguments st_world {world} s.
Arguments st_trace {world} s.
Arguments st_locals {world} s.

(** Paths of the JSON files written (the writes that returned), in the
    order of the writes. *)
Fixpoint dumped_paths (evs : list event) : list string :=
  match evs with
  | [] => []
  | EvDump p _ _ (Ret _) :: evs' => p :: dumped_paths evs'
  | _ :: evs' => dumped_paths evs'
  end.

Definition is_dump_call (ev : event) : bool :=
  match ev with
  | EvDump _ _ _ _ => true
  | _ => false
  end.

(** Paths whose existence was tested, in order. *)
Fixpoint checked_paths (evs : list event) : list string :=
  match evs with
  | [] => []
  | EvExists p _ :: evs' => p :: checked_paths evs'
  | _ :: evs' => checked_paths evs'
  end.

Definition is_store_call (ev : event) : bool :=
  match ev with
  | EvStoreProcessedData _ _ => true
  | _ => false
  end.

Definition is_collaborator_call (ev : event) : bool :=
  match ev with
  | EvProcessPdf _ _ | EvProcessPdfBatch _ _ _ _ _ _
  | EvExtractEntities _ _ _ | EvProcessExtractedData _ _
  | EvStoreProcessedData _ _ => true
  | _ => false
  end.

(** ** The orchestrators *)

Section Pipeline.

Variable world : Type.
Variable env : Env world.

(** State and exception monad of the script. *)
Definition M (A : Type) : Type := state world -> res A * state world.

Definition ret {A} (a : A) : M A := fun s => (Ret a, s).

Definition raise {A} (e : exn) : M A := fun s => (Raise e, s).

Definition bind {A B} (m : M A) (k : A -> M B) : M B :=
  fun s =>
    match m s with
    | (Ret a, s') => k a s'
    | (Raise e, s') => (Raise e, s')
    end.

Notation "x <- m ;; k" := (bind m (fun x => k))
  (at level 61, m at next level, right associativity).
Notation "m ;;; k" := (bind m (fun _ => k))
  (at level 61, right associativity).

(** [try: body  except Exception as e: handler e] *)
Definition try_except_Exception {A} (body : M A) (handler : exn -> M A)
  : M A :=
  fun s =>
    match body s with
    | (Ret a, s') => (Ret a, s')
    | (Raise e, s') =>
        if is_Exception e then handler e s' else (Raise e, s')
    end.

(** An expression of the script that may raise. *)
Definition eval {A} (r : res A) : M A := fun s => (r, s).

(** A call that acts on the world; the call and its outcome are recorded. *)
Definition effect {A} (f : world -> res A * world) (ev : res A -> event)
  : M A :=
  fun s =>
    let (r, w') := f (st_world s) in
    (r, {| st_world := w';
           st_trace := st_trace s ++ [ev r];
           st_locals := st_locals s |}).

(** A call that reads the world and may raise. *)
Definition query {A} (f : world -> res A) (ev : res A -> event) : M A :=
  effect (fun w => (f w, w)) ev.

(** A call that reads the world and cannot raise. *)
Definition observe {A} (f : world -> A) (ev : A -> event) : M A :=
  fun s =>
    let a := f (st_world s) in
    (Ret a, {| st_world := st_world s;
               st_trace := st_trace s ++ [ev a];
               st_locals := st_locals s |}).

Definition makedirs (path : string) : M unit :=
  effect (os_makedirs env path) (EvMakedirs path).

Definition glob (pattern : string) : M (list string) :=
  query (glob_glob env pattern) (EvGlob pattern).

Definition path_exists (path : string) : M bool :=
  observe (os_path_exists env path) (EvExists path).

Definition isfile (path : string) : M bool :=
  observe (os_path_isfile env path) (EvIsfile path).

Definition isdir (path : string) : M bool :=
  observe (os_path_isdir env path) (EvIsdir path).

(** [with open(path, 'r', encoding='utf-8') as f: json.load(f)] *)
Definition load (path : string) : M pyval :=
  query (json_load env path) (EvLoad path).

(** [with open(path, 'w', encoding='utf-8') as f: json.dump(v, f, indent=2,
    ensure_ascii=...)]; the script passes [ensure_ascii=False] for the
    text, entities and processed artifacts and leaves the default [True]
    for the storage outcome. *)
Definition dump (path : string) (v : pyval) (ensure_ascii : bool) : M unit :=
  effect (json_dump env path v ensure_ascii) (EvDump path v ensure_ascii).

(** [time.time()] *)
Definition now : M float := fun s => (Ret (time_time env (st_world s)), s).

Definition call_process_pdf (pdf_path : string) : M pyval :=
  effect (process_pdf env pdf_path) (EvProcessPdf pdf_path).

Definition call_process_pdf_batch (input_dir output_dir : string)
    (max_workers : Z) (file_pattern : string) (save_results : bool)
  : M pyval :=
  effect
    (process_pdf_batch env input_dir output_dir max_workers file_pattern
       save_results)
    (EvProcessPdfBatch input_dir output_dir max_workers file_pattern
       save_results).

Definition call_extract_entities (pdf_info : pyval)
    (model_path : option string) : M pyval :=
  effect (extract_entities env pdf_info model_path)
    (EvExtractEntities pdf_info model_path).

Definition call_process_extracted_data (entities_data : pyval) : M pyval :=
  effect (process_extracted_data env entities_data)
    (EvProcessExtractedData entities_data).

Definition call_store_processed_data (processed_data : pyval) : M pyval :=
  effect (store_processed_data env processed_data)
    (EvStoreProcessedData processed_data).

(** The marker returned in place of a storage outcome. *)
Definition skipped_marker : pyval := PDict [("skipped", PBool true)].

(** The arguments of the log call that follows the storage step; formatting
    them reads the outcome with [get]. *)
Definition log_db_result (db_result : pyval) : M unit :=
  success <- eval (py_get db_result "success" (PBool false)) ;;
  if py_truthy success then
    eval (py_get db_result "document_id" PNone) ;;;
    eval (py_get db_result "product_ids" (PList [])) ;;;
    ret tt
  else
    eval (py_get db_result "errors" (PList [])) ;;;
    ret tt.

(** [len(processed_data.get('products', []))] *)
Definition product_count (processed_data : pyval) : M Z :=
  products <- eval (py_get processed_data "products" (PList [])) ;;
  eval (py_len products).

(** [process_single_pdf].  Log calls whose arguments cannot raise are left
    out. *)
Definition process_single_pdf (pdf_path output_dir : string)
    (model_path : option string) (save_intermediates store_in_db : bool)
  : M pyval :=
  makedirs output_dir ;;;
  let filename := basename pdf_path in
  let base_name := fst (splitext filename) in
  (* Step 1: extract text from PDF *)
  start_time <- now ;;
  pdf_info <- call_process_pdf pdf_path ;;
  end_time <- now ;;
  let pdf_time := PrimFloat.sub end_time start_time in
  (if save_intermediates then
     dump (path_join output_dir (base_name ++ "_text.json")) pdf_info false
   else ret tt) ;;;
  (* Step 2: extract entities *)
  start_time <- now ;;
  entities_data <- call_extract_entities pdf_info model_path ;;
  end_time <- now ;;
  let entity_time := PrimFloat.sub end_time start_time in
  (if save_intermediates then
     dump (path_join output_dir (base_name ++ "_entities.json"))
       entities_data false
   else ret tt) ;;;
  (* Step 3: process extracted data *)
  start_time <- now ;;
  processed_data <- call_process_extracted_data entities_data ;;
  end_time <- now ;;
  let processing_time := PrimFloat.sub end_time start_time in
  dump (path_join output_dir (base_name ++ "_processed.json"))
    processed_data false ;;;
  (* Step 4: store in database if requested *)
  db_result <-
    (if store_in_db then
       start_time <- now ;;
       db_result <- call_store_processed_data processed_data ;;
       end_time <- now ;;
       let db_time := PrimFloat.sub end_time start_time in
       dump (path_join output_dir (base_name ++ "_db_result.json"))
         db_result true ;;;
       log_db_result db_result ;;;
       ret db_result
     else ret (PDict [])) ;;
  (* Return combined results *)
  page_count <- eval (py_get pdf_info "page_count" (PInt 0)) ;;
  requires_ocr <- eval (py_get pdf_info "requires_ocr" (PBool false)) ;;
  entities <- eval (py_get entities_data "entities" (PDict [])) ;;
  entity_types <- eval (py_keys entities) ;;
  entities' <- eval (py_get entities_data "entities" (PDict [])) ;;
  values <- eval (py_values entities') ;;
  entity_count <- eval (py_sum_len values 0) ;;
  n_products <- product_count processed_data ;;
  ret (PDict
    [("pdf_info", PDict
       [("filename", PStr filename);
        ("page_count", page_count);
        ("requires_ocr", requires_ocr);
        ("processing_time", PFloat pdf_time)]);
     ("entity_extraction", PDict
       [("entity_types", entity_types);
        ("entity_count", PInt entity_count);
        ("processing_time", PFloat entity_time)]);
     ("data_processing", PDict
       [("product_count", PInt n_products);
        ("processing_time", PFloat processing_time)]);
     ("database_storage",
       if store_in_db then db_result else skipped_marker)]).

(** Updates of the loop counters. *)
Definition update_locals (f : locals -> locals) : M unit :=
  fun s =>
    (Ret tt, {| st_world := st_world s;
                st_trace := st_trace s;
                st_locals := f (st_locals s) |}).

(** [successful += 1] *)
Definition incr_successful : M unit :=
  update_locals (fun l =>
    {| successful := successful l + 1;
       failed := failed l;
       products_found := products_found l |}).

(** [failed += 1] *)
Definition incr_failed : M unit :=
  update_locals (fun l =>
    {| successful := successful l;
       failed := failed l + 1;
       products_found := products_found l |}).

(** [products_found += n] *)
Definition add_products (n : Z) : M unit :=
  update_locals (fun l =>
    {| successful := successful l;
       failed := failed l;
       products_found := products_found l + n |}).

Definition get_locals : M locals := fun s => (Ret (st_locals s), s).

(** [extract_entities], the optional entities artifact,
    [process_extracted_data] and the processed artifact: the part of the
    loop body between loading the extraction result and the storage step. *)
Definition recognize_and_normalize (output_dir base_name : string)
    (model_path : option string) (save_intermediates : bool)
    (pdf_info : pyval) : M pyval :=
  entities_data <- call_extract_entities pdf_info model_path ;;
  (if save_intermediates then
     dump (path_join output_dir (base_name ++ "_entities.json"))
       entities_data false
   else ret tt) ;;;
  processed_data <- call_process_extracted_data entities_data ;;
  dump (path_join output_dir (base_name ++ "_processed.json"))
    processed_data false ;;;
  ret processed_data.

(** The storage step of the loop body and the update of the counters. *)
Definition store_and_count (output_dir base_name : string)
    (store_in_db : bool) (processed_data : pyval) : M unit :=
  if store_in_db then
    db_result <- call_store_processed_data processed_data ;;
    dump (path_join output_dir (base_name ++ "_db_result.json"))
      db_result true ;;;
    success <- eval (py_get db_result "success" (PBool false)) ;;
    if py_truthy success then
      n <- product_count processed_data ;;
      add_products n ;;;
      incr_successful
    else
      eval (py_get db_result "errors" (PList [])) ;;;
      incr_failed
  else
    n <- product_count processed_data ;;
    add_products n ;;;
    incr_successful.

(** The [try] block of the loop of [process_directory] for one file; the
    [continue] of the missing-artifact branch ends the block. *)
Definition file_body (output_dir : string) (model_path : option string)
    (save_intermediates store_in_db : bool) (pdf_file : string) : M unit :=
  let filename := basename pdf_file in
  let base_name := fst (splitext filename) in
  let json_path := path_join output_dir (base_name ++ ".json") in
  found <- path_exists json_path ;;
  if negb found then
    incr_failed
  else
    pdf_info <- load json_path ;;
    processed_data <-
      recognize_and_normalize output_dir base_name model_path
        save_intermediates pdf_info ;;
    store_and_count output_dir base_name store_in_db processed_data.

(** One iteration: the [try] block with its [except Exception] handler. *)
Definition file_iteration (output_dir : string) (model_path : option string)
    (save_intermediates store_in_db : bool) (pdf_file : string) : M unit :=
  try_except_Exception
    (file_body output_dir model_path save_intermediates store_in_db pdf_file)
    (fun _ => incr_failed).

(** [for x in xs: body x] *)
Fixpoint for_each {A} (xs : list A) (body : A -> M unit) : M unit :=
  match xs with
  | [] => ret tt
  | x :: xs' => body x ;;; for_each xs' body
  end.

(** The value returned when no file matches. *)
Definition no_files_result : pyval :=
  PDict [("error", PStr "No PDF files found"); ("file_count", PInt 0)].

Definition batch_summary (file_count : Z) (l : locals) : pyval :=
  PDict [("file_count", PInt file_count);
         ("successful", PInt (successful l));
         ("failed", PInt (failed l));
         ("products_found", PInt (products_found l))].

(** [process_directory] *)
Definition process_directory (input_dir output_dir : string)
    (model_path : option string) (file_pattern : string)
    (save_intermediates store_in_db : bool) (max_workers : Z) : M pyval :=
  makedirs output_dir ;;;
  pdf_files <- glob (path_join input_dir file_pattern) ;;
  match pdf_files with
  | [] => ret no_files_result
  | _ :: _ =>
      call_process_pdf_batch input_dir output_dir max_workers
        (lstrip_star file_pattern) true ;;;
      update_locals (fun _ =>
        {| successful := 0; failed := 0; products_found := 0 |}) ;;;
      for_each pdf_files
        (file_iteration output_dir model_path save_intermediates
           store_in_db) ;;;
      l <- get_locals ;;
      ret (batch_summary (Z.of_nat (List.length pdf_files)) l)
  end.

(** The parsed command line. *)
Record args : Type := {
  arg_input : string;
  arg_output_dir : string;
  arg_model : option string;
  arg_save_intermediates : bool;
  arg_no_db : bool;
  arg_pattern : string;
  arg_workers : Z
}.

(** [result[k1][k2]] *)
Definition getitem2 (result : pyval) (k1 k2 : string) : M pyval :=
  section <- eval (py_getitem result k1) ;;
  eval (py_getitem section k2).

(** [main], from the parsed arguments on; the value returned is the exit
    status handed to [exit].  The summary lines logged after each
    orchestrator read the result by subscript. *)
Definition main (a : args) : M Z :=
  is_file <- isfile (arg_input a) ;;
  if is_file then
    result <- process_single_pdf (arg_input a) (arg_output_dir a)
                (arg_model a) (arg_save_intermediates a)
                (negb (arg_no_db a)) ;;
    getitem2 result "pdf_info" "filename" ;;;
    getitem2 result "pdf_info" "page_count" ;;;
    getitem2 result "pdf_info" "requires_ocr" ;;;
    getitem2 result "entity_extraction" "entity_count" ;;;
    getitem2 result "data_processing" "product_count" ;;;
    (if negb (arg_no_db a) then
       storage <- eval (py_getitem result "database_storage") ;;
       success <- eval (py_get storage "success" (PBool false)) ;;
       if py_truthy success then
         storage <- eval (py_getitem result "database_storage") ;;
         eval (py_get storage "document_id" PNone) ;;;
         storage <- eval (py_getitem result "database_storage") ;;
         eval (py_get storage "product_ids" (PList [])) ;;;
         ret tt
       else ret tt
     else ret tt) ;;;
    ret 0
  else
    is_dir <- isdir (arg_input a) ;;
    if is_dir then
      result <- process_directory (arg_input a) (arg_output_dir a)
                  (arg_model a) (arg_pattern a) (arg_save_intermediates a)
                  (negb (arg_no_db a)) (arg_workers a) ;;
      eval (py_getitem result "file_count") ;;;
      eval (py_getitem result "successful") ;;;
      eval (py_getitem result "failed") ;;;
      eval (py_getitem result "products_found") ;;;
      ret 0
    else
      ret 1.

End Pipeline.

(** ** Vocabulary of the statements *)

(** The events a run appended to the trace. *)
Definition new_events {world} (s s' : state world) (evs : list event) : Prop :=
  st_trace s' = st_trace s ++ evs.

(** The state [s] after the calls [evs] that left the world as it is. *)
Definition record_events {world} (s : state world) (evs : list event)
  : state world :=
  {| st_world := st_world s;
     st_trace := st_trace s ++ evs;
     st_locals := st_locals s |}.

(** The state reached in world [w] after the calls [evs], with counters
    [l]. *)
Definition advance {world} (s : state world) (w : world) (evs : list event)
    (l : locals) : state world :=
  {| st_world := w; st_trace := st_trace s ++ evs; st_locals := l |}.

(** Reading a section field of a summary, [summary[k1][k2]]. *)
Definition summary_field (summary : pyval) (k1 k2 : string) : res pyval :=
  match py_getitem summary k1 with
  | Ret section => py_getitem section k2
  | Raise e => Raise e
  end.




(** Base name of a document and the names of its artifacts. *)
Definition base_name_of (pdf_file : string) : string :=
  fst (splitext (basename pdf_file)).

Definition artifact (output_dir pdf_file suffix : string) : string :=
  path_join output_dir (base_name_of pdf_file ++ suffix).

Definition when_ {A} (b : bool) (l : list A) : list A :=
  if b then l else [].

(** Artifacts of one document in single-document mode, in writing order. *)
Definition single_artifacts (output_dir pdf_path : string)
    (save_intermediates store_in_db : bool) : list string :=
  when_ save_intermediates [artifact output_dir pdf_path "_text.json"] ++
  when_ save_intermediates [artifact output_dir pdf_path "_entities.json"] ++
  [artifact output_dir pdf_path "_processed.json"] ++
  when_ store_in_db [artifact output_dir pdf_path "_db_result.json"].

(** The calls of a single-document run whose stages all return. *)
Definition single_events (output_dir pdf_path : string)
    (model_path : option string) (save_intermediates store_in_db : bool)
    (pdf_info entities_data processed_data db_result : pyval) : list event :=
  [EvMakedirs output_dir (Ret tt); EvProcessPdf pdf_path (Ret pdf_info)] ++
  when_ save_intermediates
    [EvDump (artifact output_dir pdf_path "_text.json") pdf_info false
       (Ret tt)] ++
  [EvExtractEntities pdf_info model_path (Ret entities_data)] ++
  when_ save_intermediates
    [EvDump (artifact output_dir pdf_path "_entities.json") entities_data
       false (Ret tt)] ++
  [EvProcessExtractedData entities_data (Ret processed_data);
   EvDump (artifact output_dir pdf_path "_processed.json") processed_data
     false (Ret tt)] ++
  when_ store_in_db
    [EvStoreProcessedData processed_data (Ret db_result);
     EvDump (artifact output_dir pdf_path "_db_result.json") db_result true
       (Ret tt)].

(** Artifacts of one document written by the batch loop, in writing order. *)
Definition batch_artifacts (output_dir pdf_file : string)
    (save_intermediates store_in_db : bool) : list string :=
  when_ save_intermediates [artifact output_dir pdf_file "_entities.json"] ++
  [artifact output_dir pdf_file "_processed.json"] ++
  when_ store_in_db [artifact output_dir pdf_file "_db_result.json"].

(** A run of [n] asterisks. *)
Fixpoint stars (n : nat) : string :=
  match n with
  | O => ""
  | S n' => String "*" (stars n')
  end.

Definition starts_with_star (s : string) : bool :=
  match s with
  | String "*" _ => true
  | _ => false
  end.

Definition zero_counters : locals :=
  {| successful := 0; failed := 0; products_found := 0 |}.

Definition set_failed (l : locals) (n : Z) : locals :=
  {| successful := successful l; failed := n;
     products_found := products_found l |}.

Definition count_success (l : locals) (n : Z) : locals :=
  {| successful := successful l + 1; failed := failed l;
     products_found := products_found l + n |}.

(** ** Vocabulary for failures and call order *)

(** The exception a recorded call ended with, if any. *)
Definition event_raised (ev : event) : option exn :=
  match ev with
  | EvMakedirs _ (Raise e) | EvGlob _ (Raise e) | EvLoad _ (Raise e)
  | EvDump _ _ _ (Raise e) | EvProcessPdf _ (Raise e)
  | EvProcessPdfBatch _ _ _ _ _ (Raise e)
  | EvExtractEntities _ _ (Raise e) | EvProcessExtractedData _ (Raise e)
  | EvStoreProcessedData _ (Raise e) => Some e
  | _ => None
  end.

(** No call but the last one raised. *)
Fixpoint raised_only_last (evs : list event) : Prop :=
  match evs with
  | [] => True
  | ev :: rest =>
      match rest with
      | [] => True
      | _ :: _ => event_raised ev = None /\ raised_only_last rest
      end
  end.

(** The exception of the last call, if it raised. *)
Fixpoint last_raised (evs : list event) : option exn :=
  match evs with
  | [] => None
  | ev :: rest =>
      match rest with
      | [] => event_raised ev
      | _ :: _ => last_raised rest
      end
  end.

(** The exceptions raised by reading a value: [get], [keys] or [values] on
    a value that is no dictionary, [len] of a value without length. *)
Definition reading_error (e : exn) : Prop :=
  exists detail,
    e = PyException "AttributeError" detail \/
    e = PyException "TypeError" detail.

Definition is_extractor_call (ev : event) : bool :=
  match ev with
  | EvProcessPdf _ _ => true
  | _ => false
  end.

Definition is_batch_extractor_call (ev : event) : bool :=
  match ev with
  | EvProcessPdfBatch _ _ _ _ _ _ => true
  | _ => false
  end.

Definition is_recognizer_call (ev : event) : bool :=
  match ev with
  | EvExtractEntities _ _ _ => true
  | _ => false
  end.

Definition is_normalizer_call (ev : event) : bool :=
  match ev with
  | EvProcessExtractedData _ _ => true
  | _ => false
  end.

(** Number of the calls of one kind in a trace. *)
Definition count_events (kind : event -> bool) (evs : list event) : nat :=
  List.length (filter kind evs).

(** Every call of the storage sink comes directly after a write to [path]
    that returned, and is given the value written there; [prev] is the call
    before [evs]. *)
Fixpoint store_follows_dump (path : string) (prev : option event)
    (evs : list event) : Prop :=
  match evs with
  | [] => True
  | ev :: rest =>
      match ev with
      | EvStoreProcessedData v _ =>
          match prev with
          | Some (EvDump path' v' _ (Ret _)) => path' = path /\ v' = v
          | _ => False
          end
      | _ => True
      end /\ store_follows_dump path (Some ev) rest
  end.

(** The counters after [n] failed files and nothing else. *)
Definition all_failed (n : Z) : locals :=
  {| successful := 0; failed := n; products_found := 0 |}.

(** ** Vocabulary for the calls made *)

(** The call recorded as [ev] was made on the environment in world [w]: it
    had the recorded outcome and left the world [w']. *)
Definition call_made {world} (env : Env world) (w : world) (ev : event)
    (w' : world) : Prop :=
  match ev with
  | EvMakedirs path r => os_makedirs env path w = (r, w')
  | EvGlob pattern r => glob_glob env pattern w = r /\ w' = w
  | EvExists path b => os_path_exists env path w = b /\ w' = w
  | EvIsfile path b => os_path_isfile env path w = b /\ w' = w
  | EvIsdir path b => os_path_isdir env path w = b /\ w' = w
  | EvLoad path r => json_load env path w = r /\ w' = w
  | EvDump path v ensure_ascii r =>
      json_dump env path v ensure_ascii w = (r, w')
  | EvProcessPdf pdf_path r => process_pdf env pdf_path w = (r, w')
  | EvProcessPdfBatch input_dir output_dir max_workers file_pattern
      save_results r =>
      process_pdf_batch env input_dir output_dir max_workers file_pattern
        save_results w = (r, w')
  | EvExtractEntities pdf_info model_path r =>
      extract_entities env pdf_info model_path w = (r, w')
  | EvProcessExtractedData entities_data r =>
      process_extracted_data env entities_data w = (r, w')
  | EvStoreProcessedData processed_data r =>
      store_processed_data env processed_data w = (r, w')
  end.

(** The calls recorded in [evs] were made one after the other on the
    environment, from world [w] to world [w']. *)
Fixpoint calls_made {world} (env : Env world) (w : world)
    (evs : list event) (w' : world) : Prop :=
  match evs with
  | [] => w' = w
  | ev :: rest =>
      exists w1, call_made env w ev w1 /\ calls_made env w1 rest w'
  end.

Definition is_missing_test (ev : event) : bool :=
  match ev with
  | EvExists _ false => true
  | _ => false
  end.

(** Number of the existence tests that found nothing. *)
Definition missing_tests (evs : list event) : Z :=
  Z.of_nat (count_events is_missing_test evs).

Definition result_of_extractor (ev : event) : option pyval :=
  match ev with
  | EvProcessPdf _ (Ret v) => Some v
  | _ => None
  end.

Definition result_of_recognizer (ev : event) : option pyval :=
  match ev with
  | EvExtractEntities _ _ (Ret v) => Some v
  | _ => None
  end.

Definition result_of_normalizer (ev : event) : option pyval :=
  match ev with
  | EvProcessExtractedData _ (Ret v) => Some v
  | _ => None
  end.

Definition result_of_sink (ev : event) : option pyval :=
  match ev with
  | EvStoreProcessedData _ (Ret v) => Some v
  | _ => None
  end.

(** The call that comes directly after each call for which [result] gives
    a value is the write of that value to [path] with the flag
    [ensure_ascii]. *)
Fixpoint written_next (result : event -> option pyval) (path : string)
    (ensure_ascii : bool) (evs : list event) : Prop :=
  match evs with
  | [] => True
  | ev :: rest =>
      match result ev with
      | Some v =>
          match rest with
          | EvDump path' v' ensure_ascii' _ :: _ =>
              path' = path /\ v' = v /\ ensure_ascii' = ensure_ascii
          | _ => False
          end
      | None => True
      end /\ written_next result path ensure_ascii rest
  end.

(** The calls of the iteration of file [f]: one test of its extraction
    artifact, at most one call of each later stage, each only after the one
    before, and no extractor. *)
Definition file_calls (output_dir : string) (store_in_db : bool)
    (f : string) (evs : list event) : Prop :=
  checked_paths evs = [artifact output_dir f ".json"] /\
  count_events is_extractor_call evs = 0%nat /\
  count_events is_batch_extractor_call evs = 0%nat /\
  (count_events is_recognizer_call evs <= 1)%nat /\
  (count_events is_normalizer_call evs <=
   count_events is_recognizer_call evs)%nat /\
  (count_events is_store_call evs <=
   count_events is_normalizer_call evs)%nat /\
  (store_in_db = false -> count_events is_store_call evs = 0%nat).

(** ** A simulated environment

    A disk of JSON files by path and collaborators given by a scenario;
    used to run the orchestrators on concrete inputs. *)
Module Sim.

Definition disk : Type := list (string * pyval).

Record scenario : Type := {
  sc_is_file : bool;
  sc_is_dir : bool;
  sc_glob : list string;
  sc_extract : string -> res pyval;
  sc_batch_output : disk;
  sc_recognize : pyval -> res pyval;
  sc_normalize : pyval -> res pyval;
  sc_store : pyval -> res pyval
}.

Definition on_disk (path : string) (d : disk) : bool :=
  match assoc_get path d with
  | Some _ => true
  | None => false
  end.

Definition read (path : string) (d : disk) : res pyval :=
  match assoc_get path d with
  | Some v => Ret v
  | None => Raise (PyException "FileNotFoundError" path)
  end.

Definition env (sc : scenario) : Env disk :=
  {| os_makedirs := fun _ d => (Ret tt, d);
     glob_glob := fun _ _ => Ret (sc_glob sc);
     os_path_exists := on_disk;
     os_path_isfile := fun _ _ => sc_is_file sc;
     os_path_isdir := fun _ _ => sc_is_dir sc;
     json_load := read;
     json_dump := fun path v _ d => (Ret tt, (path, v) :: d);
     time_time := fun _ => 0%float;
     process_pdf := fun path d => (sc_extract sc path, d);
     process_pdf_batch := fun _ _ _ _ _ d =>
       (Ret PNone, sc_batch_output sc ++ d);
     extract_entities := fun info _ d => (sc_recognize sc info, d);
     process_extracted_data := fun e d => (sc_normalize sc e, d);
     store_processed_data := fun p d => (sc_store sc p, d) |}.

Definition start : state disk :=
  {| st_world := []; st_trace := []; st_locals := zero_counters |}.

(** The state in which the loop of a batch starts: the batch extractor has
    written its artifacts. *)
Definition extracted (sc : scenario) : state disk :=
  {| st_world := sc_batch_output sc;
     st_trace := [];
     st_locals := zero_counters |}.

(** Stock collaborators. *)
Definition info (name : string) : pyval :=
  PDict [("filename", PStr name); ("page_count", PInt 2);
         ("requires_ocr", PBool false)].

Definition name_of (v : pyval) : string :=
  match py_get v "filename" PNone with
  | Ret (PStr n) => n
  | _ => ""
  end.

Definition acme_entities : pyval :=
  PDict [("ORG", PList [PStr "Acme"]); ("PRICE", PList [PStr "19.99"])].

Definition recognize (pdf_info : pyval) : res pyval :=
  Ret (PDict [("filename", PStr (name_of pdf_info));
              ("entities", acme_entities)]).

Definition normalize (entities_data : pyval) : res pyval :=
  Ret (PDict [("filename", PStr (name_of entities_data));
              ("products",
                PList [PDict [("name", PStr "Acme");
                              ("price", PStr "19.99")]])]).

Definition stored : pyval :=
  PDict [("success", PBool true); ("document_id", PInt 1);
         ("product_ids", PList [PInt 1])].

Definition rejected : pyval :=
  PDict [("success", PBool false);
         ("errors", PList [PStr "duplicate key"])].

Definition store (processed_data : pyval) : res pyval := Ret stored.

(** A storage sink that rejects the records of [b.pdf]. *)
Definition store_rejecting_b (processed_data : pyval) : res pyval :=
  if String.eqb (name_of processed_data) "b.pdf" then Ret rejected
  else Ret stored.

(** A recognizer interrupted from the keyboard while working on [b.pdf]. *)
Definition recognize_interrupted_on_b (pdf_info : pyval) : res pyval :=
  if String.eqb (name_of pdf_info) "b.pdf"
  then Raise (PyBaseException "KeyboardInterrupt")
  else recognize pdf_info.

(** A recognizer whose model fails on [b.pdf]. *)
Definition recognize_failing_on_b (pdf_info : pyval) : res pyval :=
  if String.eqb (name_of pdf_info) "b.pdf"
  then Raise (PyException "RecognitionError" "model")
  else recognize pdf_info.

(** One document, every stage succeeds. *)
Definition single_ok : scenario :=
  {| sc_is_file := true; sc_is_dir := false; sc_glob := [];
     sc_extract := fun _ => Ret (info "acme.pdf");
     sc_batch_output := [];
     sc_recognize := recognize; sc_normalize := normalize;
     sc_store := store |}.

(** One document, the storage sink reports a failure. *)
Definition single_rejected : scenario :=
  {| sc_is_file := true; sc_is_dir := false; sc_glob := [];
     sc_extract := fun _ => Ret (info "acme.pdf");
     sc_batch_output := [];
     sc_recognize := recognize; sc_normalize := normalize;
     sc_store := fun _ => Ret rejected |}.

(** One document, the extractor fails. *)
Definition single_unreadable : scenario :=
  {| sc_is_file := true; sc_is_dir := false; sc_glob := [];
     sc_extract := fun _ => Raise (PyException "ExtractionError" "corrupt");
     sc_batch_output := [];
     sc_recognize := recognize; sc_normalize := normalize;
     sc_store := store |}.

Definition three_files : list string := ["in/a.pdf"; "in/b.pdf"; "in/c.pdf"].

(** Three documents; the batch extractor produces nothing for [b.pdf]. *)
Definition batch_missing_b : scenario :=
  {| sc_is_file := false; sc_is_dir := true; sc_glob := three_files;
     sc_extract := fun _ => Ret PNone;
     sc_batch_output :=
       [("out/a.json", info "a.pdf"); ("out/c.json", info "c.pdf")];
     sc_recognize := recognize; sc_normalize := normalize;
     sc_store := store |}.

(** Two documents; the storage sink rejects the second. *)
Definition batch_rejected_b : scenario :=
  {| sc_is_file := false; sc_is_dir := true;
     sc_glob := ["in/a.pdf"; "in/b.pdf"];
     sc_extract := fun _ => Ret PNone;
     sc_batch_output :=
       [("out/a.json", info "a.pdf"); ("out/b.json", info "b.pdf")];
     sc_recognize := recognize; sc_normalize := normalize;
     sc_store := store_rejecting_b |}.

(** Three documents; the recognizer is interrupted on the second. *)
Definition batch_interrupted_b : scenario :=
  {| sc_is_file := false; sc_is_dir := true; sc_glob := three_files;
     sc_extract := fun _ => Ret PNone;
     sc_batch_output :=
       [("out/a.json", info "a.pdf"); ("out/b.json", info "b.pdf");
        ("out/c.json", info "c.pdf")];
     sc_recognize := recognize_interrupted_on_b; sc_normalize := normalize;
     sc_store := store |}.

(** Three documents; the recognizer fails on the second. *)
Definition batch_unrecognized_b : scenario :=
  {| sc_is_file := false; sc_is_dir := true; sc_glob := three_files;
     sc_extract := fun _ => Ret PNone;
     sc_batch_output :=
       [("out/a.json", info "a.pdf"); ("out/b.json", info "b.pdf");
        ("out/c.json", info "c.pdf")];
     sc_recognize := recognize_failing_on_b; sc_normalize := normalize;
     sc_store := store |}.

(** An existing directory without a matching file. *)
Definition empty_dir : scenario :=
  {| sc_is_file := false; sc_is_dir := true; sc_glob := [];
     sc_extract := fun _ => Ret PNone;
     sc_batch_output := [];
     sc_recognize := recognize; sc_normalize := normalize;
     sc_store := store |}.

(** A path that is neither a file nor a directory. *)
Definition nowhere : scenario :=
  {| sc_is_file := false; sc_is_dir := false; sc_glob := [];
     sc_extract := fun _ => Ret PNone;
     sc_batch_output := [];
     sc_recognize := recognize; sc_normalize := normalize;
     sc_store := store |}.

Definition cli (input : string) (no_db : bool) : args :=
  {| arg_input := input; arg_output_dir := "out"; arg_model := None;
     arg_save_intermediates := false; arg_no_db := no_db;
     arg_pattern := "*.pdf"; arg_workers := 4 |}.

(** Runs from the initial state. *)
Definition run_single (sc : scenario) (save store : bool)
  : res pyval * state disk :=
  process_single_pdf (env sc) "docs/acme.pdf" "out" None save store start.

Definition run_batch (sc : scenario) (save store : bool)
  : res pyval * state disk :=
  process_directory (env sc) "in" "out" None "*.pdf" save store 4 start.

Definition run_file (sc : scenario) (save store : bool) (pdf_file : string)
  : res unit * state disk :=
  file_iteration (env sc) "out" None save store pdf_file (extracted sc).

(** The summary of a run that returned. *)
Definition summary_of (run : res pyval * state disk) : pyval :=
  match fst run with
  | Ret summary => summary
  | Raise _ => PNone
  end.

Definition run_main (sc : scenario) (input : string) (no_db : bool)
  : res Z * state disk :=
  main (env sc) (cli input no_db) start.

End Sim.

(** ** Further scenarios *)
Module Cases.

(** One document whose collaborators return empty dictionaries. *)
Definition single_bare : Sim.scenario :=
  {| Sim.sc_is_file := true; Sim.sc_is_dir := false; Sim.sc_glob := [];
     Sim.sc_extract := fun _ => Ret (PDict []);
     Sim.sc_batch_output := [];
     Sim.sc_recognize := fun _ => Ret (PDict []);
     Sim.sc_normalize := fun _ => Ret (PDict []);
     Sim.sc_store := Sim.store |}.

(** One document whose recognizer returns a list where the dictionary of
    entities is expected. *)
Definition single_malformed : Sim.scenario :=
  {| Sim.sc_is_file := true; Sim.sc_is_dir := false; Sim.sc_glob := [];
     Sim.sc_extract := fun _ => Ret (Sim.info "acme.pdf");
     Sim.sc_batch_output := [];
     Sim.sc_recognize :=
       fun _ => Ret (PDict [("entities", PList [PStr "Acme"])]);
     Sim.sc_normalize := Sim.normalize;
     Sim.sc_store := Sim.store |}.

(** One document, the storage sink raises. *)
Definition single_sink_down : Sim.scenario :=
  {| Sim.sc_is_file := true; Sim.sc_is_dir := false; Sim.sc_glob := [];
     Sim.sc_extract := fun _ => Ret (Sim.info "acme.pdf");
     Sim.sc_batch_output := [];
     Sim.sc_recognize := Sim.recognize;
     Sim.sc_normalize := Sim.normalize;
     Sim.sc_store :=
       fun _ => Raise (PyException "OperationalError" "connection refused") |}.

(** Three documents for which the batch extractor writes nothing. *)
Definition batch_nothing_extracted : Sim.scenario :=
  {| Sim.sc_is_file := false; Sim.sc_is_dir := true;
     Sim.sc_glob := Sim.three_files;
     Sim.sc_extract := fun _ => Ret PNone;
     Sim.sc_batch_output := [];
     Sim.sc_recognize := Sim.recognize;
     Sim.sc_normalize := Sim.normalize;
     Sim.sc_store := Sim.store |}.

Definition pool_broken : exn := PyException "BrokenProcessPool" "worker died".

(** The environment of a scenario with a batch extractor that raises. *)
Definition env_batch_down (sc : Sim.scenario) : Env Sim.disk :=
  {| os_makedirs := os_makedirs (Sim.env sc);
     glob_glob := glob_glob (Sim.env sc);
     os_path_exists := os_path_exists (Sim.env sc);
     os_path_isfile := os_path_isfile (Sim.env sc);
     os_path_isdir := os_path_isdir (Sim.env sc);
     json_load := json_load (Sim.env sc);
     json_dump := json_dump (Sim.env sc);
     time_time := time_time (Sim.env sc);
     process_pdf := process_pdf (Sim.env sc);
     process_pdf_batch := fun _ _ _ _ _ d => (Raise pool_broken, d);
     extract_entities := extract_entities (Sim.env sc);
     process_extracted_data := process_extracted_data (Sim.env sc);
     store_processed_data := store_processed_data (Sim.env sc) |}.

End Cases.

(** * The system check script

    A shallow embedding of [test_system.py]: five checks of the host (the
    required directories, the database, the PDF and NLP modules, the API)
    and the [main] that turns their results into an exit status.  What the
    script asks of the host is the record [Host]; every question asked is
    recorded, with its answer, as a [probe]. *)
Module TestSystem.

Inductive probe : Type :=
| PrExists (path : string) (b : bool)
| PrMakedirs (path : string) (r : res unit)
| PrFindSpec (module_name : string) (b : bool)
| PrConnect (r : res unit)
| PrSelectOne (r : res pyval)
| PrClose (r : res unit)
| PrGlobPdf (files : list string)
| PrImport (module_name : string) (r : res unit)
| PrGet (url : string) (r : res Z).

(** [host_find_spec m] is [importlib.util.find_spec(m) is not None];
    [host_connect] imports [create_engine], creates the engine and enters
    [with engine.connect() as conn]; [host_select_one] executes [SELECT 1]
    on the connection and fetches one row; [host_close] leaves the [with]
    block, closing the connection (it does not swallow an exception of the
    block); [host_glob_pdf] is
    [list(Path("data/raw").glob("*.pdf"))]; [host_import] is an import
    statement; [host_get] is the status code of [requests.get(url,
    timeout=5)]. *)
Record Host (world : Type) : Type := {
  host_exists : string -> world -> bool;
  host_makedirs : string -> world -> res unit * world;
  host_find_spec : string -> world -> bool;
  host_connect : world -> res unit * world;
  host_select_one : world -> res pyval * world;
  host_close : world -> res unit * world;
  host_glob_pdf : world -> list string;
  host_import : string -> world -> res unit * world;
  host_get : string -> world -> res Z * world
}.

Record tstate (world : Type) : Type := {
  ts_world : world;
  ts_probes : list probe
}.

Arguments ts_world {world} t.
Arguments ts_probes {world} t.

(** [row[0]] *)
Definition py_first (v : pyval) : res pyval :=
  match v with
  | PList (x :: _) => Ret x
  | PList [] => Raise (PyException "IndexError" "list index out of range")
  | PStr (String c _) => Ret (PStr (String c EmptyString))
  | PStr EmptyString =>
      Raise (PyException "IndexError" "string index out of range")
  | PDict _ => Raise (PyException "KeyError" "0")
  | _ => Raise (PyException "TypeError" (type_name v))
  end.

(** [v == 1] *)
Definition py_equals_one (v : pyval) : bool :=
  match v with
  | PInt z => z =? 1
  | PBool b => b
  | PFloat f => PrimFloat.eqb f 1%float
  | _ => false
  end.

(** [row and row[0] == 1], as the condition of an [if] *)
Definition row_is_one (row : pyval) : res bool :=
  if py_truthy row then
    match py_first row with
    | Ret x => Ret (py_equals_one x)
    | Raise e => Raise e
    end
  else Ret false.

Definition required_dirs : list string :=
  ["src"; "src/pdf_processing"; "src/nlp"; "src/database"; "src/api";
   "src/utils"; "data"; "data/raw"; "data/processed"].

(** The parsed command line of the script. *)
Record flags : Type := {
  skip_db : bool;
  skip_pdf : bool;
  skip_nlp : bool;
  skip_api : bool
}.

Section Script.

Variable world : Type.
Variable host : Host world.

Definition T (A : Type) : Type := tstate world -> res A * tstate world.

Definition tret {A} (a : A) : T A := fun t => (Ret a, t).

Definition tbind {A B} (m : T A) (k : A -> T B) : T B :=
  fun t =>
    match m t with
    | (Ret a, t') => k a t'
    | (Raise e, t') => (Raise e, t')
    end.

Notation "x <- m ;; k" := (tbind m (fun x => k))
  (at level 61, m at next level, right associativity).
Notation "m ;;; k" := (tbind m (fun _ => k))
  (at level 61, right associativity).

(** [try: body  except Exception: handler] *)
Definition ttry {A} (body : T A) (handler : T A) : T A :=
  fun t =>
    match body t with
    | (Ret a, t') => (Ret a, t')
    | (Raise e, t') => if is_Exception e then handler t' else (Raise e, t')
    end.

Definition tlift {A} (r : res A) : T A := fun t => (r, t).

Definition ask {A} (f : world -> A) (pr : A -> probe) : T A :=
  fun t =>
    let a := f (ts_world t) in
    (Ret a, {| ts_world := ts_world t; ts_probes := ts_probes t ++ [pr a] |}).

Definition act {A} (f : world -> res A * world) (pr : res A -> probe) : T A :=
  fun t =>
    let (r, w') := f (ts_world t) in
    (r, {| ts_world := w'; ts_probes := ts_probes t ++ [pr r] |}).

(** [is_module_available] *)
Definition is_module_available (module_name : string) : T bool :=
  ask (host_find_spec host module_name) (PrFindSpec module_name).

(** [not is_module_available(m1) or not is_module_available(m2)] *)
Definition either_missing (m1 m2 : string) : T bool :=
  a <- is_module_available m1 ;;
  if negb a then tret true
  else b <- is_module_available m2 ;; tret (negb b).

(** The loop of [check_directories]. *)
Fixpoint ensure_dirs (dirs : list string) : T unit :=
  match dirs with
  | [] => tret tt
  | directory :: rest =>
      found <- ask (host_exists host directory) (PrExists directory) ;;
      (if negb found then
         act (host_makedirs host directory) (PrMakedirs directory)
       else tret tt) ;;;
      ensure_dirs rest
  end.

(** [check_directories] *)
Definition check_directories : T pyval :=
  ensure_dirs required_dirs ;;;
  tret (PBool true).

(** [with engine.connect() as conn: body]: once the connection is open it
    is closed when the block is left, by a [return], by falling through or
    by an exception; an exception raised by the closing replaces the
    outcome of the block. *)
Definition with_connection {A} (body : T A) : T A :=
  act (host_connect host) PrConnect ;;;
  fun t =>
    let (outcome, t1) := body t in
    match act (host_close host) PrClose t1 with
    | (Ret _, t2) => (outcome, t2)
    | (Raise e, t2) => (Raise e, t2)
    end.

(** [check_database]; the function ends without a [return] when the row is
    not the expected one, which yields [None]. *)
Definition check_database (skip : bool) : T pyval :=
  if skip then tret (PBool true)
  else
    missing <- either_missing "sqlalchemy" "psycopg2" ;;
    if missing then tret (PBool false)
    else
      ttry
        (with_connection
           (row <- act (host_select_one host) PrSelectOne ;;
            ok <- tlift (row_is_one row) ;;
            if ok then tret (PBool true) else tret PNone))
        (tret (PBool false)).

(** [check_pdf_processing] *)
Definition check_pdf_processing (skip : bool) : T pyval :=
  if skip then tret (PBool true)
  else
    missing <- either_missing "pdfplumber" "pytesseract" ;;
    if missing then tret (PBool false)
    else
      pdf_files <- ask (host_glob_pdf host) PrGlobPdf ;;
      match pdf_files with
      | [] => tret (PBool false)
      | _ :: _ =>
          ttry
            (act (host_import host "src.pdf_processing.batch")
               (PrImport "src.pdf_processing.batch") ;;;
             tret (PBool true))
            (tret (PBool false))
      end.

(** [check_nlp_pipeline] *)
Definition check_nlp_pipeline (skip : bool) : T pyval :=
  if skip then tret (PBool true)
  else
    pdf_files <- ask (host_glob_pdf host) PrGlobPdf ;;
    match pdf_files with
    | [] => tret (PBool false)
    | _ :: _ =>
        available <- is_module_available "spacy" ;;
        if negb available then tret (PBool false)
        else
          ttry
            (act (host_import host "src.nlp.entity_extractor")
               (PrImport "src.nlp.entity_extractor") ;;;
             tret (PBool true))
            (tret (PBool false))
    end.

(** [check_api]; [import requests] stands outside the [try]. *)
Definition check_api (skip : bool) : T pyval :=
  if skip then tret (PBool true)
  else
    available <- is_module_available "requests" ;;
    if negb available then tret (PBool false)
    else
      act (host_import host "requests") (PrImport "requests") ;;;
      ttry
        (status <- act (host_get host "http://localhost:8000/health")
                     (PrGet "http://localhost:8000/health") ;;
         if status =? 200 then tret (PBool true) else tret (PBool false))
        (tret (PBool false)).

(** [sum(1 for result in results.values() if result)] *)
Definition count_passed (results : list (string * pyval)) : Z :=
  Z.of_nat (List.length (filter (fun kv => py_truthy (snd kv)) results)).

(** The exit status computed from the results. *)
Definition exit_status (results : list (string * pyval)) : Z :=
  let passed := count_passed results in
  let total := Z.of_nat (List.length results) in
  if passed <? total then 1 else 0.

(** [main], from the parsed arguments on. *)
Definition main (args : flags) : T Z :=
  directories <- check_directories ;;
  database <- check_database (skip_db args) ;;
  pdf_processing <- check_pdf_processing (skip_pdf args) ;;
  nlp <- check_nlp_pipeline (skip_nlp args) ;;
  api <- check_api (skip_api args) ;;
  tret (exit_status
          [("DIRECTORIES", directories); ("DATABASE", database);
           ("PDF_PROCESSING", pdf_processing); ("NLP", nlp); ("API", api)]).

End Script.



(** A simulated host: the directories in [sim_dirs] exist, the modules in
    [sim_modules] are installed and import, the database accepts the
    connection, returns [sim_row] and closes with [sim_close], [data/raw]
    holds [sim_pdfs] and the API answers [sim_status]. *)
Record sim : Type := {
  sim_dirs : list string;
  sim_modules : list string;
  sim_row : res pyval;
  sim_close : res unit;
  sim_pdfs : list string;
  sim_status : res Z
}.

Definition mem (x : string) (l : list string) : bool :=
  existsb (String.eqb x) l.

Definition sim_host (cfg : sim) : Host (list string) :=
  {| host_exists := fun path dirs => mem path dirs;
     host_makedirs := fun path dirs => (Ret tt, path :: dirs);
     host_find_spec := fun m _ => mem m (sim_modules cfg);
     host_connect := fun dirs => (Ret tt, dirs);
     host_select_one := fun dirs => (sim_row cfg, dirs);
     host_close := fun dirs => (sim_close cfg, dirs);
     host_glob_pdf := fun _ => sim_pdfs cfg;
     host_import := fun _ dirs => (Ret tt, dirs);
     host_get := fun _ dirs => (sim_status cfg, dirs) |}.


Definition boot (cfg : sim) : tstate (list string) :=
  {| ts_world := sim_dirs cfg; ts_probes := [] |}.



(** As [healthy], but the database answers [SELECT 1] with no row. *)
Definition no_row : sim :=
  {| sim_dirs := required_dirs;
     sim_modules :=
       ["sqlalchemy"; "psycopg2"; "pdfplumber"; "pytesseract"; "spacy";
        "requests"];
     sim_row := Ret PNone;
     sim_close := Ret tt;
     sim_pdfs := ["data/raw/catalogue.pdf"];
     sim_status := Ret 200 |}.

(** As [healthy], but without a PDF in [data/raw]. *)
Definition no_pdf : sim :=
  {| sim_dirs := required_dirs;
     sim_modules :=
       ["sqlalchemy"; "psycopg2"; "pdfplumber"; "pytesseract"; "spacy";
        "requests"];
     sim_row := Ret (PList [PInt 1]);
     sim_close := Ret tt;
     sim_pdfs := [];
     sim_status := Ret 200 |}.



Definition none_skipped : flags :=
  {| skip_db := false; skip_pdf := false; skip_nlp := false;
     skip_api := false |}.

End TestSystem.

(** * Properties *)

(** ** Helpers of the standard library on examples *)

Example basename_ex : basename "data/raw/cat.v2.pdf" = "cat.v2.pdf".
Proof. reflexivity. Qed.

Example splitext_ex : splitext "cat.v2.pdf" = ("cat.v2", ".pdf").
Proof. reflexivity. Qed.

Example splitext_hidden : splitext ".hidden" = (".hidden", "").
Proof. reflexivity. Qed.

Example path_join_ex : path_join "out" "cat_text.json" = "out/cat_text.json".
Proof. reflexivity. Qed.

Example lstrip_star_ex : lstrip_star "**a*.pdf" = "a*.pdf".
Proof. reflexivity. Qed.

(** ** Proof tools *)

#[local] Arguments path_join : simpl never.
#[local] Arguments splitext : simpl never.
#[local] Arguments basename : simpl never.
#[local] Arguments lstrip_star : simpl never.
#[local] Arguments py_get : simpl never.
#[local] Arguments py_getitem : simpl never.
#[local] Arguments py_len : simpl never.
#[local] Arguments py_keys : simpl never.
#[local] Arguments py_values : simpl never.
#[local] Arguments py_truthy : simpl never.
#[local] Arguments String.append : simpl never.

(** Unfolds the monadic layer down to matches on the outcomes of the
    calls. *)
Ltac unfold_script :=
  unfold process_single_pdf, file_iteration, file_body,
    recognize_and_normalize, store_and_count, log_db_result, product_count,
    try_except_Exception, incr_failed, incr_successful, add_products,
    update_locals, get_locals,
    makedirs, glob, path_exists, isfile, isdir, load, dump, now,
    call_process_pdf, call_process_pdf_batch, call_extract_entities,
    call_process_extracted_data, call_store_processed_data,
    query, effect, observe, eval, bind, ret, raise in *.

(** Splits on the outcome of the next call of a run recorded in [H]. *)
Ltac case_step H :=
  match type of H with
  | context [match ?x with _ => _ end] =>
      lazymatch x with
      | context [match _ with _ => _ end] => fail
      | _ => destruct x eqn:?
      end
  | context [if ?x then _ else _] =>
      lazymatch x with
      | context [match _ with _ => _ end] => fail
      | _ => destruct x eqn:?
      end
  end; simpl in H; try discriminate H.

Ltac flatten_trace :=
  unfold new_events; simpl; repeat rewrite <- app_assoc; simpl.

Ltac finish_run H :=
  inversion H; subst; clear H; flatten_trace.

Lemma bind_run {world A B} (m : M world A) (k : A -> M world B) s :
  bind m k s =
  match m s with
  | (Ret a, s') => k a s'
  | (Raise e, s') => (Raise e, s')
  end.
Proof. reflexivity. Qed.

Lemma new_events_refl {world} (s : state world) : new_events s s [].
Proof. unfold new_events. now rewrite app_nil_r. Qed.

Lemma new_events_trans {world} (s1 s2 s3 : state world) evs1 evs2 :
  new_events s1 s2 evs1 -> new_events s2 s3 evs2 ->
  new_events s1 s3 (evs1 ++ evs2).
Proof.
  unfold new_events. intros H1 H2. rewrite H2, H1. now rewrite app_assoc.
Qed.

Lemma new_events_inj {world} (s s' : state world) evs1 evs2 :
  new_events s s' evs1 -> new_events s s' evs2 -> evs1 = evs2.
Proof.
  unfold new_events. intros H1 H2. rewrite H1 in H2.
  now apply app_inv_head in H2.
Qed.

Lemma dumped_paths_app evs1 evs2 :
  dumped_paths (evs1 ++ evs2) = dumped_paths evs1 ++ dumped_paths evs2.
Proof.
  induction evs1 as [|ev evs1 IH]; [reflexivity|].
  destruct ev; simpl; try exact IH.
  destruct r; simpl; [now rewrite IH | exact IH].
Qed.

Lemma checked_paths_app evs1 evs2 :
  checked_paths (evs1 ++ evs2) = checked_paths evs1 ++ checked_paths evs2.
Proof.
  induction evs1 as [|ev evs1 IH]; [reflexivity|].
  destruct ev; simpl; try exact IH. now rewrite IH.
Qed.

Lemma lstrip_star_stars p :
  exists n, p = (stars n ++ lstrip_star p)%string.
Proof.
  induction p as [|a p [n IH]].
  - exists O. reflexivity.
  - destruct (Ascii.eqb a "*") eqn:E.
    + apply Ascii.eqb_eq in E. subst a. exists (S n).
      change (lstrip_star (String "*" p)) with (lstrip_star p).
      change (String "*" p = String "*" (stars n ++ lstrip_star p)%string).
      now rewrite <- IH.
    + exists O.
      assert (lstrip_star (String a p) = String a p) as ->; [|reflexivity].
      destruct a as [[] [] [] [] [] [] [] []]; try reflexivity.
      discriminate E.
Qed.

Lemma lstrip_star_no_star p : starts_with_star (lstrip_star p) = false.
Proof.
  induction p as [|a p IH]; [reflexivity|].
  destruct (Ascii.eqb a "*") eqn:E.
  - apply Ascii.eqb_eq in E. subst a. exact IH.
  - destruct a as [[] [] [] [] [] [] [] []]; try reflexivity.
    discriminate E.
Qed.

Lemma lstrip_star_changes p :
  starts_with_star p = true -> lstrip_star p <> p.
Proof.
  intros H E. rewrite <- E in H. rewrite lstrip_star_no_star in H.
  discriminate H.
Qed.

(** ** The batch loop, one file at a time *)

(** What one execution of the [try] block does: it tests the extraction
    artifact of its file and nothing else, writes artifacts of the document
    only, in order, and touches the counters only when it completes: a
    completed block counts its file once, as failed or as successful. *)
Lemma file_body_spec {world} (env : Env world) out model save store f s r s' :
  file_body env out model save store f s = (r, s') ->
  exists evs,
    new_events s s' evs /\
    checked_paths evs = [artifact out f ".json"] /\
    (exists rest, batch_artifacts out f save store = dumped_paths evs ++ rest) /\
    (os_path_exists env (artifact out f ".json") (st_world s) = false ->
     dumped_paths evs = []) /\
    match r with
    | Ret _ =>
        (os_path_exists env (artifact out f ".json") (st_world s) = true ->
         dumped_paths evs = batch_artifacts out f save store) /\
        (st_locals s' = set_failed (st_locals s) (failed (st_locals s) + 1) \/
         exists n, st_locals s' = count_success (st_locals s) n)
    | Raise _ => st_locals s' = st_locals s
    end.
Proof.
  intros H. unfold batch_artifacts, artifact, base_name_of, when_.
  unfold_script. simpl in H.
  repeat case_step H.
  all: finish_run H.
  all: eexists; split; [reflexivity|]; split; [reflexivity|]; split;
    [simpl; eexists; reflexivity|]; split;
    [intros Hf; simpl; try reflexivity;
     match goal with
     | E : negb _ = false |- _ => rewrite Hf in E; discriminate E
     end|].
  all: simpl; try reflexivity.
  all: split;
    [intros Hf; try reflexivity;
     match goal with
     | E : negb _ = true |- _ => rewrite Hf in E; discriminate E
     end|].
  all: try (left; reflexivity); try (right; eexists; reflexivity).
Qed.

(** One iteration of the loop: the handler turns an [Exception] of the
    block into one more failed file; what still escapes is not an
    [Exception]. *)
Lemma file_iteration_spec {world} (env : Env world) out model save store f
    s r s' :
  file_iteration env out model save store f s = (r, s') ->
  exists evs,
    new_events s s' evs /\
    checked_paths evs = [artifact out f ".json"] /\
    (exists rest, batch_artifacts out f save store = dumped_paths evs ++ rest) /\
    match r with
    | Ret _ =>
        successful (st_locals s') + failed (st_locals s') =
        successful (st_locals s) + failed (st_locals s) + 1
    | Raise e => is_Exception e = false
    end.
Proof.
  unfold file_iteration, try_except_Exception. intros H.
  destruct (file_body env out model save store f s) as [[u|e] s1] eqn:E;
    apply file_body_spec in E;
    destruct E as (evs & Hev & Hck & Hpre & _ & Hl).
  - inversion H; subst; clear H. exists evs. repeat split; try assumption.
    destruct Hl as [_ [Hl | [n Hl]]]; rewrite Hl; simpl; lia.
  - destruct (is_Exception e) eqn:Ee.
    + unfold incr_failed, update_locals in H.
      inversion H; subst; clear H. exists evs.
      repeat split; try assumption. simpl. rewrite Hl. lia.
    + inversion H; subst; clear H. exists evs.
      repeat split; assumption.
Qed.

(** The loop visits the files in order; it stops early only on an exception
    that is not an [Exception]. *)
Lemma batch_loop_spec {world} (env : Env world) out model save store files :
  forall s r s',
    for_each files (file_iteration env out model save store) s = (r, s') ->
    exists evs,
      new_events s s' evs /\
      match r with
      | Ret _ =>
          checked_paths evs = map (fun f => artifact out f ".json") files /\
          successful (st_locals s') + failed (st_locals s') =
          successful (st_locals s) + failed (st_locals s) +
          Z.of_nat (List.length files)
      | Raise e => is_Exception e = false
      end.
Proof.
  induction files as [|f files IH]; intros s r s' H.
  - inversion H; subst; clear H. exists []. split; [apply new_events_refl|].
    simpl. split; [reflexivity | lia].
  - cbn [for_each] in H. rewrite bind_run in H.
    destruct (file_iteration env out model save store f s) as [[u|e] s1] eqn:E;
      apply file_iteration_spec in E;
      destruct E as (evs1 & Hev1 & Hck1 & _ & Hl1).
    + apply IH in H. destruct H as (evs2 & Hev2 & Hr).
      exists (evs1 ++ evs2). split; [eapply new_events_trans; eassumption|].
      destruct r as [u'|e'].
      * destruct Hr as [Hck2 Hl2]. split.
        -- rewrite checked_paths_app, Hck1, Hck2. reflexivity.
        -- rewrite Hl2, Hl1. cbn [List.length]. lia.
      * exact Hr.
    + inversion H; subst; clear H. exists evs1. split; assumption.
Qed.

(** ** The batch orchestrator *)

(** [process_directory] once the enumeration has found files: the batch
    extractor is called once, then the loop runs from zeroed counters. *)
Lemma process_directory_run {world} (env : Env world) input_dir out model pat
    save store workers s w1 f fs :
  os_makedirs env out (st_world s) = (Ret tt, w1) ->
  glob_glob env (path_join input_dir pat) w1 = Ret (f :: fs) ->
  process_directory env input_dir out model pat save store workers s =
  let found :=
    [EvMakedirs out (Ret tt);
     EvGlob (path_join input_dir pat) (Ret (f :: fs))] in
  let batch r :=
    EvProcessPdfBatch input_dir out workers (lstrip_star pat) true r in
  match process_pdf_batch env input_dir out workers (lstrip_star pat) true w1
  with
  | (Ret b, w2) =>
      match
        for_each (f :: fs) (file_iteration env out model save store)
          (advance s w2 (found ++ [batch (Ret b)]) zero_counters)
      with
      | (Ret _, s3) =>
          (Ret (batch_summary (Z.of_nat (List.length (f :: fs)))
                  (st_locals s3)), s3)
      | (Raise e, s3) => (Raise e, s3)
      end
  | (Raise e, w2) =>
      (Raise e, advance s w2 (found ++ [batch (Raise e)]) (st_locals s))
  end.
Proof.
  intros Hmk Hgl. unfold process_directory.
  rewrite bind_run. unfold makedirs at 1, effect at 1. rewrite Hmk.
  rewrite bind_run. unfold glob at 1, query at 1, effect at 1.
  cbn [st_world]. rewrite Hgl. cbv zeta.
  rewrite bind_run. unfold call_process_pdf_batch at 1, effect at 1.
  cbn [st_world].
  destruct (process_pdf_batch env input_dir out workers (lstrip_star pat) true w1)
    as [[b|e] w2].
  - rewrite bind_run. unfold update_locals at 1.
    rewrite bind_run. unfold advance, zero_counters. cbn [st_world st_trace].
    repeat rewrite <- app_assoc. cbn [app].
    destruct (for_each _ _ _) as [[u|e] s3]; reflexivity.
  - unfold advance. cbn [st_trace st_locals].
    repeat rewrite <- app_assoc. reflexivity.
Qed.

(** C2, as amended: a per-file failure does not abort the batch.  An
    iteration whose extraction artifact is absent, or whose block raises an
    instance of [Exception], returns normally with [failed] one higher and
    the other counters as they were, and the loop goes on with the next
    file.  The loop over any list of files either returns, having tested
    the artifact of every file in order and counted every file once, or is
    aborted by an exception that is not an [Exception].  Such an exception
    is never caught: raised by the block of a file, it is the outcome of
    the iteration, of the loop, whose remaining files are not run, and of
    [process_directory], in the state the block left. *)
Theorem per_file_failure_does_not_abort {world} (env : Env world) out model
    save store :
  let iteration := file_iteration env out model save store in
  (forall f s e s1,
     file_body env out model save store f s = (Raise e, s1) ->
     is_Exception e = false ->
     iteration f s = (Raise e, s1)) /\
  (forall f rest s e s1,
     iteration f s = (Raise e, s1) ->
     for_each (f :: rest) iteration s = (Raise e, s1)) /\
  (forall input_dir pat workers s w1 f fs b w2 e s3,
     os_makedirs env out (st_world s) = (Ret tt, w1) ->
     glob_glob env (path_join input_dir pat) w1 = Ret (f :: fs) ->
     process_pdf_batch env input_dir out workers (lstrip_star pat) true w1 =
       (Ret b, w2) ->
     for_each (f :: fs) iteration
       (advance s w2
          [EvMakedirs out (Ret tt);
           EvGlob (path_join input_dir pat) (Ret (f :: fs));
           EvProcessPdfBatch input_dir out workers (lstrip_star pat) true
             (Ret b)] zero_counters) = (Raise e, s3) ->
     process_directory env input_dir out model pat save store workers s =
       (Raise e, s3)) /\
  (forall f s,
     os_path_exists env (artifact out f ".json") (st_world s) = false ->
     iteration f s =
       (Ret tt,
        advance s (st_world s) [EvExists (artifact out f ".json") false]
          (set_failed (st_locals s) (failed (st_locals s) + 1)))) /\
  (forall f s e s1,
     file_body env out model save store f s = (Raise e, s1) ->
     is_Exception e = true ->
     iteration f s =
       (Ret tt,
        {| st_world := st_world s1;
           st_trace := st_trace s1;
           st_locals := set_failed (st_locals s) (failed (st_locals s) + 1) |})) /\
  (forall f rest s s1,
     iteration f s = (Ret tt, s1) ->
     for_each (f :: rest) iteration s = for_each rest iteration s1) /\
  (forall files s r s',
     for_each files iteration s = (r, s') ->
     exists evs,
       new_events s s' evs /\
       match r with
       | Ret _ =>
           checked_paths evs = map (fun f => artifact out f ".json") files /\
           successful (st_locals s') + failed (st_locals s') =
           successful (st_locals s) + failed (st_locals s) +
           Z.of_nat (List.length files)
       | Raise e => is_Exception e = false
       end).
Proof.
  cbv zeta. repeat split.
  - intros f s e s1 Hb He. unfold file_iteration, try_except_Exception.
    rewrite Hb, He. reflexivity.
  - intros f rest s e s1 H. cbn [for_each]. rewrite bind_run, H.
    reflexivity.
  - intros input_dir pat workers s w1 f fs b w2 e s3 Hmk Hgl Hb Hloop.
    rewrite (process_directory_run _ _ _ _ _ _ _ _ _ Hmk Hgl). cbv zeta.
    rewrite Hb. cbn [app]. rewrite Hloop. reflexivity.
  - intros f s Hf. unfold artifact, base_name_of in *. unfold_script.
    rewrite Hf. reflexivity.
  - intros f s e s1 Hb He. pose proof (file_body_spec _ _ _ _ _ _ _ Hb) as Hs.
    destruct Hs as (_ & _ & _ & _ & _ & Hl).
    unfold file_iteration, try_except_Exception. rewrite Hb, He.
    unfold incr_failed, update_locals. rewrite Hl. reflexivity.
  - intros f rest s s1 H. cbn [for_each]. rewrite bind_run, H. reflexivity.
  - intros files s r s' H. eapply batch_loop_spec. exact H.
Qed.

(** The run of [process_directory] over an enumeration without a match. *)
Lemma process_directory_no_match {world} (env : Env world) input_dir out
    model pat save store workers s w1 :
  os_makedirs env out (st_world s) = (Ret tt, w1) ->
  glob_glob env (path_join input_dir pat) w1 = Ret [] ->
  process_directory env input_dir out model pat save store workers s =
    (Ret no_files_result,
     advance s w1
       [EvMakedirs out (Ret tt); EvGlob (path_join input_dir pat) (Ret [])]
       (st_locals s)).
Proof.
  intros Hmk Hgl. unfold process_directory.
  rewrite bind_run. unfold makedirs at 1, effect at 1. rewrite Hmk.
  rewrite bind_run. unfold glob at 1, query at 1, effect at 1.
  cbn [st_world]. rewrite Hgl. unfold ret, advance.
  cbn [st_trace st_locals st_world]. repeat rewrite <- app_assoc.
  reflexivity.
Qed.

(** C8: when the enumeration matches no file, [process_directory] returns
    the marker [{'error': 'No PDF files found', 'file_count': 0}] having only
    created the output directory and enumerated: no collaborator is called
    and no file is written. *)
Theorem no_match_returns_marker {world} (env : Env world) input_dir out model
    pat save store workers s w1 :
  os_makedirs env out (st_world s) = (Ret tt, w1) ->
  glob_glob env (path_join input_dir pat) w1 = Ret [] ->
  let evs :=
    [EvMakedirs out (Ret tt); EvGlob (path_join input_dir pat) (Ret [])] in
  process_directory env input_dir out model pat save store workers s =
    (Ret (PDict [("error", PStr "No PDF files found");
                 ("file_count", PInt 0)]),
     advance s w1 evs (st_locals s)) /\
  filter is_collaborator_call evs = [] /\
  filter is_dump_call evs = [].
Proof.
  intros Hmk Hgl. cbv zeta. split; [|split; reflexivity].
  now apply process_directory_no_match.
Qed.

(** ** Classification of a file in the batch loop *)

(** The block of a file whose extraction artifact is present and loads. *)
Lemma file_body_found {world} (env : Env world) out model save store f s
    pdf_info :
  let json_path := artifact out f ".json" in
  os_path_exists env json_path (st_world s) = true ->
  json_load env json_path (st_world s) = Ret pdf_info ->
  file_body env out model save store f s =
  bind
    (recognize_and_normalize env out (base_name_of f) model save pdf_info)
    (store_and_count env out (base_name_of f) store)
    (record_events s
       [EvExists json_path true; EvLoad json_path (Ret pdf_info)]).
Proof.
  cbv zeta. unfold artifact, base_name_of. intros Hex Hld.
  unfold file_body. rewrite bind_run. unfold path_exists at 1, observe at 1.
  rewrite Hex. cbn [negb]. rewrite bind_run.
  unfold load at 1, query at 1, effect at 1. cbn [st_world]. rewrite Hld.
  unfold record_events. cbn [st_trace st_locals].
  repeat rewrite <- app_assoc. reflexivity.
Qed.

(** C3: a file whose extraction artifact loads and whose recognition and
    normalization complete, yielding [n] products, is classified as follows.
    Without storage it is counted successful and [n] is added to
    [products_found], whatever else.  With storage, once the outcome of the
    sink is written, its [success] flag alone decides: when true the file
    is counted successful and [n] is added, when false it is counted failed
    and [products_found] stays as it was. *)
Theorem batch_classification {world} (env : Env world) out model save f s
    pdf_info processed_data s1 products n :
  let json_path := artifact out f ".json" in
  let db_path := artifact out f "_db_result.json" in
  os_path_exists env json_path (st_world s) = true ->
  json_load env json_path (st_world s) = Ret pdf_info ->
  recognize_and_normalize env out (base_name_of f) model save pdf_info
    (record_events s
       [EvExists json_path true; EvLoad json_path (Ret pdf_info)]) =
    (Ret processed_data, s1) ->
  py_get processed_data "products" (PList []) = Ret products ->
  py_len products = Ret n ->
  file_iteration env out model save false f s =
    (Ret tt,
     advance s1 (st_world s1) [] (count_success (st_locals s1) n)) /\
  (forall db_result w2 w3 success,
     store_processed_data env processed_data (st_world s1) =
       (Ret db_result, w2) ->
     json_dump env db_path db_result true w2 = (Ret tt, w3) ->
     py_get db_result "success" (PBool false) = Ret success ->
     file_iteration env out model save true f s =
       (Ret tt,
        advance s1 w3
          [EvStoreProcessedData processed_data (Ret db_result);
           EvDump db_path db_result true (Ret tt)]
          (if py_truthy success
           then count_success (st_locals s1) n
           else set_failed (st_locals s1) (failed (st_locals s1) + 1)))).
Proof.
  cbv zeta. intros Hex Hld Hrn Hpr Hlen. split.
  - unfold file_iteration, try_except_Exception.
    rewrite (file_body_found _ _ _ _ _ _ _ Hex Hld). cbv zeta.
    rewrite bind_run, Hrn.
    unfold store_and_count, product_count, add_products, incr_successful,
      update_locals, eval, bind, advance, count_success.
    rewrite Hpr, Hlen. cbn [st_world st_trace st_locals successful failed
      products_found]. rewrite app_nil_r. reflexivity.
  - intros db_result w2 w3 success Hst Hdp Hsu.
    unfold file_iteration, try_except_Exception.
    rewrite (file_body_found _ _ _ _ _ _ _ Hex Hld). cbv zeta.
    rewrite bind_run, Hrn. unfold artifact in Hdp.
    unfold store_and_count, product_count, add_products, incr_successful,
      incr_failed, update_locals, eval, bind, advance, count_success,
      set_failed, call_store_processed_data, dump, effect.
    rewrite Hst. cbn [st_world]. rewrite Hdp, Hsu.
    destruct (py_truthy success).
    + rewrite Hpr, Hlen. cbn [st_world st_trace st_locals successful failed
        products_found]. repeat rewrite <- app_assoc. reflexivity.
    + destruct (py_get db_result "errors" (PList [])) eqn:Eerr.
      * cbn [st_world st_trace st_locals successful failed products_found].
        repeat rewrite <- app_assoc. reflexivity.
      * unfold py_get in Hsu, Eerr. destruct db_result; try discriminate Hsu.
        destruct (assoc_get "errors" d); discriminate Eerr.
Qed.

(** ** The single-document orchestrator *)

(** Case analysis on a membership in an explicit list of events. *)
Ltac in_cases H :=
  simpl in H;
  repeat (destruct H as [H|H]; [try discriminate H|]);
  try contradiction.

Ltac known_events Hev :=
  unfold new_events in Hev; simpl in Hev;
  repeat rewrite <- app_assoc in Hev; simpl in Hev;
  apply app_inv_head in Hev; subst.

(** C4: in single-document mode a failure of the extractor, of the entity
    recognizer or of the normalizer is the outcome of the whole call: no
    summary is returned, and the only artifacts written are the
    intermediate ones of the stages that came before. *)
Theorem collaborator_failure_propagates {world} (env : Env world) p out model
    save store s r s' evs e :
  process_single_pdf env p out model save store s = (r, s') ->
  new_events s s' evs ->
  (In (EvProcessPdf p (Raise e)) evs ->
   r = Raise e /\ dumped_paths evs = []) /\
  (forall pdf_info,
     In (EvExtractEntities pdf_info model (Raise e)) evs ->
     r = Raise e /\
     dumped_paths evs = when_ save [artifact out p "_text.json"]) /\
  (forall entities_data,
     In (EvProcessExtractedData entities_data (Raise e)) evs ->
     r = Raise e /\
     dumped_paths evs =
       when_ save [artifact out p "_text.json";
                   artifact out p "_entities.json"]).
Proof.
  intros H Hev. unfold artifact, base_name_of, when_.
  unfold_script. simpl in H.
  repeat case_step H.
  all: inversion H; subst; clear H; known_events Hev.
  all: split; [|split]; intros;
    match goal with
    | Hin : In _ _ |- _ =>
        in_cases Hin; try (inversion Hin; subst; split; reflexivity)
    end.
Qed.

(** Every run of [process_single_pdf]: it writes artifacts of its document
    only, in order, and calls the storage sink only when asked to; a run
    that returns has made exactly the calls of [single_events] and its
    summary reads as follows. *)
Lemma single_run_spec {world} (env : Env world) p out model save store
    s r s' :
  process_single_pdf env p out model save store s = (r, s') ->
  exists evs,
    new_events s s' evs /\
    (exists rest,
       single_artifacts out p save store = dumped_paths evs ++ rest) /\
    (store = false -> filter is_store_call evs = []) /\
    match r with
    | Ret summary =>
        exists pdf_info entities_data processed_data db_result,
          evs = single_events out p model save store pdf_info entities_data
                  processed_data db_result /\
          py_getitem summary "database_storage" =
            Ret (if store then db_result else skipped_marker) /\
          exists entities entity_types values entity_count,
            py_get entities_data "entities" (PDict []) = Ret entities /\
            py_keys entities = Ret entity_types /\
            py_values entities = Ret values /\
            py_sum_len values 0 = Ret entity_count /\
            summary_field summary "entity_extraction" "entity_types" =
              Ret entity_types /\
            summary_field summary "entity_extraction" "entity_count" =
              Ret (PInt entity_count)
    | Raise _ => True
    end.
Proof.
  intros H.
  unfold single_artifacts, single_events, artifact, base_name_of, when_.
  unfold_script. simpl in H.
  repeat case_step H.
  all: inversion H; subst; clear H; flatten_trace.
  all: repeat match goal with a : unit |- _ => destruct a end.
  all: eexists; split; [reflexivity|]; split;
    [simpl; eexists; reflexivity|]; split;
    [intros Hst; try discriminate Hst; reflexivity|].
  all: try exact I.
  all: do 4 eexists.
  all: try (split; [reflexivity|]; split; [reflexivity|]; do 4 eexists;
            repeat split; try eassumption; reflexivity).
  all: exact PNone.
Qed.



(** C5: a single-document run without storage never calls the storage sink,
    whatever its outcome, and the [database_storage] section of its summary
    is the marker [{'skipped': True}], which has no [success] field; with
    storage, the sink is called once and the section is what it returned. *)
Theorem storage_section_skipped_or_outcome {world} (env : Env world) p out
    model save s :
  (forall r s' evs,
     process_single_pdf env p out model save false s = (r, s') ->
     new_events s s' evs ->
     filter is_store_call evs = [] /\
     forall summary,
       r = Ret summary ->
       py_getitem summary "database_storage" =
         Ret (PDict [("skipped", PBool true)])) /\
  py_getitem (PDict [("skipped", PBool true)]) "success" =
    Raise (PyException "KeyError" "success") /\
  (forall summary s' evs,
     process_single_pdf env p out model save true s = (Ret summary, s') ->
     new_events s s' evs ->
     exists processed_data db_result,
       filter is_store_call evs =
         [EvStoreProcessedData processed_data (Ret db_result)] /\
       py_getitem summary "database_storage" = Ret db_result).
Proof.
  split; [|split; [reflexivity|]].
  - intros r s' evs H Hev. apply single_run_spec in H.
    destruct H as (evs' & Hev' & _ & Hno & Hr).
    rewrite (new_events_inj Hev Hev'). split; [now apply Hno|].
    intros summary ->. destruct Hr as (? & ? & ? & ? & _ & Hdb & _).
    exact Hdb.
  - intros summary s' evs H Hev. apply single_run_spec in H.
    destruct H as (evs' & Hev' & _ & _ & Hr).
    rewrite (new_events_inj Hev Hev').
    destruct Hr as (pdf_info & entities_data & processed_data & db_result &
                    -> & Hdb & _).
    exists processed_data, db_result. split; [|exact Hdb].
    destruct save; reflexivity.
Qed.

Lemma dumped_single_events out p model save store i e d r :
  dumped_paths (single_events out p model save store i e d r) =
  single_artifacts out p save store.
Proof. destruct save, store; reflexivity. Qed.



(** ** The entry point *)

Lemma py_get_total v k d x k' d' :
  py_get v k d = Ret x -> exists y, py_get v k' d' = Ret y.
Proof.
  unfold py_get. destruct v; try discriminate. intros _.
  destruct (assoc_get k' d0); eauto.
Qed.

(** The summary of a single-document run has the four sections that [main]
    reads, and its storage section answers [get]. *)
Lemma single_summary_shape {world} (env : Env world) p out model save store
    s summary s' :
  process_single_pdf env p out model save store s = (Ret summary, s') ->
  exists filename page_count requires_ocr t1 entity_types entity_count t2
         product_count t3 storage success,
    summary =
      PDict
        [("pdf_info", PDict
           [("filename", filename); ("page_count", page_count);
            ("requires_ocr", requires_ocr); ("processing_time", t1)]);
         ("entity_extraction", PDict
           [("entity_types", entity_types); ("entity_count", entity_count);
            ("processing_time", t2)]);
         ("data_processing", PDict
           [("product_count", product_count); ("processing_time", t3)]);
         ("database_storage", storage)] /\
    py_get storage "success" (PBool false) = Ret success.
Proof.
  intros H. unfold_script. simpl in H.
  repeat case_step H.
  all: inversion H; subst; clear H.
  all: do 11 eexists; split; [reflexivity|]; try eassumption; reflexivity.
Qed.

(** [main] returns 1 when the input is neither a file nor a directory. *)
Lemma main_missing_input {world} (env : Env world) a s :
  os_path_isfile env (arg_input a) (st_world s) = false ->
  os_path_isdir env (arg_input a) (st_world s) = false ->
  main env a s =
    (Ret 1,
     record_events s
       [EvIsfile (arg_input a) false; EvIsdir (arg_input a) false]).
Proof.
  intros Hf Hd. unfold main, isfile, isdir, observe, bind, ret, record_events.
  rewrite Hf. cbn [st_world]. rewrite Hd. cbn [st_trace st_locals].
  repeat rewrite <- app_assoc. reflexivity.
Qed.

(** [main] on a directory hands over to [process_directory]. *)
Lemma main_directory {world} (env : Env world) a s :
  os_path_isfile env (arg_input a) (st_world s) = false ->
  os_path_isdir env (arg_input a) (st_world s) = true ->
  main env a s =
  match
    process_directory env (arg_input a) (arg_output_dir a) (arg_model a)
      (arg_pattern a) (arg_save_intermediates a) (negb (arg_no_db a))
      (arg_workers a)
      (record_events s
         [EvIsfile (arg_input a) false; EvIsdir (arg_input a) true])
  with
  | (Ret result, s') =>
      match py_getitem result "file_count" with
      | Raise e => (Raise e, s')
      | Ret _ =>
          match py_getitem result "successful" with
          | Raise e => (Raise e, s')
          | Ret _ =>
              match py_getitem result "failed" with
              | Raise e => (Raise e, s')
              | Ret _ =>
                  match py_getitem result "products_found" with
                  | Raise e => (Raise e, s')
                  | Ret _ => (Ret 0, s')
                  end
              end
          end
      end
  | (Raise e, s') => (Raise e, s')
  end.
Proof.
  intros Hf Hd. unfold main, isfile, isdir, observe, record_events.
  rewrite bind_run. rewrite Hf. rewrite bind_run. cbn [st_world].
  rewrite Hd. cbn [st_trace st_locals]. repeat rewrite <- app_assoc.
  cbn [app]. rewrite bind_run.
  destruct (process_directory _ _ _ _ _ _ _ _ _) as [[result|e] s'];
    [|reflexivity].
  unfold eval, bind, ret.
  repeat (match goal with
          | |- context [match py_getitem ?v ?k with _ => _ end] =>
              destruct (py_getitem v k)
          end); reflexivity.
Qed.

(** [main] returns 0 after a batch run that produced a batch summary. *)
Lemma main_batch_completed {world} (env : Env world) a s n l s' :
  os_path_isfile env (arg_input a) (st_world s) = false ->
  os_path_isdir env (arg_input a) (st_world s) = true ->
  process_directory env (arg_input a) (arg_output_dir a) (arg_model a)
    (arg_pattern a) (arg_save_intermediates a) (negb (arg_no_db a))
    (arg_workers a)
    (record_events s
       [EvIsfile (arg_input a) false; EvIsdir (arg_input a) true]) =
    (Ret (batch_summary n l), s') ->
  main env a s = (Ret 0, s').
Proof.
  intros Hf Hd H. rewrite (main_directory _ _ _ Hf Hd), H. reflexivity.
Qed.

(** [main] returns 0 after a single-document run that returned. *)
Lemma main_single_completed {world} (env : Env world) a s summary s' :
  os_path_isfile env (arg_input a) (st_world s) = true ->
  process_single_pdf env (arg_input a) (arg_output_dir a) (arg_model a)
    (arg_save_intermediates a) (negb (arg_no_db a))
    (record_events s [EvIsfile (arg_input a) true]) = (Ret summary, s') ->
  main env a s = (Ret 0, s').
Proof.
  intros Hf H. pose proof (single_summary_shape _ _ _ _ _ _ _ H) as Hs.
  destruct Hs as (? & ? & ? & ? & ? & ? & ? & ? & ? & storage & success &
                  -> & Hsu).
  unfold main, isfile, observe. rewrite bind_run, Hf.
  fold (record_events s [EvIsfile (arg_input a) true]).
  rewrite bind_run, H.
  unfold getitem2, eval, bind, ret.
  destruct (negb (arg_no_db a)); [|reflexivity].
  change (py_getitem (PDict _) "database_storage") with (Ret storage).
  cbv iota beta. rewrite Hsu. destruct (py_truthy success); [|reflexivity].
  destruct (@py_get_total _ _ _ _ "document_id" PNone Hsu) as [y1 ->].
  destruct (@py_get_total _ _ _ _ "product_ids" (PList []) Hsu) as [y2 ->].
  reflexivity.
Qed.

(** X6: whenever [main] returns, it returns 0 or 1, and 1 exactly when the
    input is neither a file nor a directory. *)
Lemma main_status {world} (env : Env world) a s n s' :
  main env a s = (Ret n, s') ->
  (n = 0 \/ n = 1) /\
  (n <> 0 <->
   os_path_isfile env (arg_input a) (st_world s) = false /\
   os_path_isdir env (arg_input a) (st_world s) = false).
Proof.
  intros H. unfold main, getitem2, isfile, isdir, observe, eval, bind, ret in H.
  cbn [st_world] in H.
  repeat case_step H.
  all: inversion H; subst; clear H.
  all: split; [auto|]; split;
    [intros Hn; try (exfalso; apply Hn; reflexivity); split; reflexivity
    |intros [Hf Hd]; try discriminate Hf; try discriminate Hd; discriminate].
Qed.

(** C7, the failing case: on an existing directory in which no file matches,
    [process_directory] returns its marker, and [main] then raises
    [KeyError] on the [successful] field of that marker instead of
    returning 0. *)
Theorem main_fails_on_empty_directory {world} (env : Env world) a s w1 :
  os_path_isfile env (arg_input a) (st_world s) = false ->
  os_path_isdir env (arg_input a) (st_world s) = true ->
  os_makedirs env (arg_output_dir a) (st_world s) = (Ret tt, w1) ->
  glob_glob env (path_join (arg_input a) (arg_pattern a)) w1 = Ret [] ->
  let entered :=
    record_events s
      [EvIsfile (arg_input a) false; EvIsdir (arg_input a) true] in
  let left :=
    advance entered w1
      [EvMakedirs (arg_output_dir a) (Ret tt);
       EvGlob (path_join (arg_input a) (arg_pattern a)) (Ret [])]
      (st_locals s) in
  process_directory env (arg_input a) (arg_output_dir a) (arg_model a)
    (arg_pattern a) (arg_save_intermediates a) (negb (arg_no_db a))
    (arg_workers a) entered = (Ret no_files_result, left) /\
  main env a s = (Raise (PyException "KeyError" "successful"), left).
Proof.
  intros Hf Hd Hmk Hgl. cbv zeta.
  assert (Hrun := @process_directory_no_match _ env (arg_input a)
    (arg_output_dir a) (arg_model a) (arg_pattern a)
    (arg_save_intermediates a) (negb (arg_no_db a)) (arg_workers a)
    (record_events s
       [EvIsfile (arg_input a) false; EvIsdir (arg_input a) true])
    w1 Hmk Hgl).
  split; [exact Hrun|].
  rewrite (main_directory _ _ _ Hf Hd), Hrun. reflexivity.
Qed.

(** ** Runs in the simulated environment *)

(** The batch of three files whose second extraction artifact is missing:
    all three files are looked at, two succeed and one fails. *)
Example batch_of_three_missing_b :
  let run := Sim.run_batch Sim.batch_missing_b false true in
  fst run =
    Ret (batch_summary 3
           {| successful := 2; failed := 1; products_found := 2 |}) /\
  checked_paths (st_trace (snd run)) =
    ["out/a.json"; "out/b.json"; "out/c.json"].
Proof. vm_compute. split; reflexivity. Qed.

(** The batch of two files whose second is rejected by the storage sink:
    only the products of the first are counted. *)
Example batch_of_two_rejected_b :
  fst (Sim.run_batch Sim.batch_rejected_b false true) =
    Ret (batch_summary 2
           {| successful := 1; failed := 1; products_found := 1 |}).
Proof. vm_compute. reflexivity. Qed.

(** The exit status is 0 after a batch with a failed file and 1 for an
    input that does not exist. *)
Example main_after_partial_failure :
  fst (Sim.run_main Sim.batch_missing_b "in" false) = Ret 0.
Proof. vm_compute. reflexivity. Qed.

Example main_without_input :
  fst (Sim.run_main Sim.nowhere "in" false) = Ret 1.
Proof. vm_compute. reflexivity. Qed.

Example main_after_single_document :
  fst (Sim.run_main Sim.single_rejected "docs/acme.pdf" false) = Ret 0.
Proof. vm_compute. reflexivity. Qed.

(** The batch of three files of which the second was interrupted: the
    exception leaves [process_directory], the third file is never looked at
    and no summary is returned. *)
Lemma interrupt_aborts_batch :
  let run := Sim.run_batch Sim.batch_interrupted_b false true in
  let iteration :=
    file_iteration (Sim.env Sim.batch_interrupted_b) "out" None false true in
  fst run = Raise (PyBaseException "KeyboardInterrupt") /\
  checked_paths (st_trace (snd run)) = ["out/a.json"; "out/b.json"] /\
  ~ (forall f s e s1,
       file_body (Sim.env Sim.batch_interrupted_b) "out" None false true f s =
         (Raise e, s1) ->
       exists s', iteration f s = (Ret tt, s')).
Proof.
  cbv zeta. split; [vm_compute; reflexivity|].
  split; [vm_compute; reflexivity|].
  intros H.
  destruct (H "in/b.pdf" (Sim.extracted Sim.batch_interrupted_b)
              (PyBaseException "KeyboardInterrupt")
              (snd (file_body (Sim.env Sim.batch_interrupted_b) "out" None
                      false true "in/b.pdf"
                      (Sim.extracted Sim.batch_interrupted_b))))
    as [s' Hs']; [vm_compute; reflexivity|].
  vm_compute in Hs'. discriminate Hs'.
Qed.

(** Three files with a recognizer failing on the second: the iteration of
    a file without artifact and that of the second file both return with
    one failed file, and the loop looks at all three files. *)
Lemma per_file_failure_does_not_abort_witness :
  let sc := Sim.batch_unrecognized_b in
  let iteration := file_iteration (Sim.env sc) "out" None false true in
  fst (Sim.run_file sc false true "in/z.pdf") = Ret tt /\
  st_locals (snd (Sim.run_file sc false true "in/z.pdf")) =
    {| successful := 0; failed := 1; products_found := 0 |} /\
  fst (Sim.run_file sc false true "in/b.pdf") = Ret tt /\
  st_locals (snd (Sim.run_file sc false true "in/b.pdf")) =
    {| successful := 0; failed := 1; products_found := 0 |} /\
  for_each ["in/b.pdf"; "in/c.pdf"] iteration (Sim.extracted sc) =
    for_each ["in/c.pdf"] iteration
      (snd (Sim.run_file sc false true "in/b.pdf")) /\
  (exists evs,
     new_events (Sim.extracted sc)
       (snd (for_each Sim.three_files iteration (Sim.extracted sc))) evs /\
     checked_paths evs = ["out/a.json"; "out/b.json"; "out/c.json"] /\
     fst (for_each Sim.three_files iteration (Sim.extracted sc)) = Ret tt) /\
  fst (Sim.run_file Sim.batch_interrupted_b false true "in/b.pdf") =
    Raise (PyBaseException "KeyboardInterrupt").
Proof.
  cbv zeta.
  destruct (@per_file_failure_does_not_abort _
              (Sim.env Sim.batch_interrupted_b) "out" None false true)
    as (Hescape & _).
  assert (Hint :
    file_body (Sim.env Sim.batch_interrupted_b) "out" None false true
      "in/b.pdf" (Sim.extracted Sim.batch_interrupted_b) =
    (Raise (PyBaseException "KeyboardInterrupt"),
     snd (file_body (Sim.env Sim.batch_interrupted_b) "out" None false true
            "in/b.pdf" (Sim.extracted Sim.batch_interrupted_b))))
    by (vm_compute; reflexivity).
  assert (Hlast :
    fst (Sim.run_file Sim.batch_interrupted_b false true "in/b.pdf") =
    Raise (PyBaseException "KeyboardInterrupt"))
    by (unfold Sim.run_file; rewrite (Hescape _ _ _ _ Hint eq_refl);
        reflexivity).
  destruct (@per_file_failure_does_not_abort _
              (Sim.env Sim.batch_unrecognized_b) "out" None false true)
    as (_ & _ & _ & Hmiss & Hexc & Hnext & Hloop).
  assert (Hbody :
    file_body (Sim.env Sim.batch_unrecognized_b) "out" None false true
      "in/b.pdf" (Sim.extracted Sim.batch_unrecognized_b) =
    (Raise (PyException "RecognitionError" "model"),
     snd (file_body (Sim.env Sim.batch_unrecognized_b) "out" None false true
            "in/b.pdf" (Sim.extracted Sim.batch_unrecognized_b))))
    by (vm_compute; reflexivity).
  unfold Sim.run_file.
  rewrite (Hmiss "in/z.pdf" (Sim.extracted Sim.batch_unrecognized_b) eq_refl).
  rewrite (Hexc _ _ _ _ Hbody eq_refl).
  split; [reflexivity|]. split; [reflexivity|].
  split; [reflexivity|]. split; [reflexivity|].
  split; [|split; [|exact Hlast]].
  - apply Hnext. rewrite (Hexc _ _ _ _ Hbody eq_refl). reflexivity.
  - destruct (Hloop Sim.three_files (Sim.extracted Sim.batch_unrecognized_b)
                (Ret tt)
                (snd (for_each Sim.three_files
                        (file_iteration (Sim.env Sim.batch_unrecognized_b)
                           "out" None false true)
                        (Sim.extracted Sim.batch_unrecognized_b))))
      as (evs & Hev & Hck & _); [vm_compute; reflexivity|].
    exists evs. split; [exact Hev|]. split; [exact Hck|].
    vm_compute. reflexivity.
Defined.

(** Two files, the second rejected by the storage sink: without storage
    the second file is successful; with storage it is failed and adds no
    product, while the first is successful and adds one. *)
Lemma batch_classification_witness :
  st_locals (snd (Sim.run_file Sim.batch_rejected_b false false "in/b.pdf")) =
    {| successful := 1; failed := 0; products_found := 1 |} /\
  st_locals (snd (Sim.run_file Sim.batch_rejected_b false true "in/b.pdf")) =
    {| successful := 0; failed := 1; products_found := 0 |} /\
  st_locals (snd (Sim.run_file Sim.batch_rejected_b false true "in/a.pdf")) =
    {| successful := 1; failed := 0; products_found := 1 |}.
Proof.
  pose (sc := Sim.batch_rejected_b).
  pose (product :=
    PDict [("name", PStr "Acme"); ("price", PStr "19.99")]).
  pose (processed name :=
    PDict [("filename", PStr name); ("products", PList [product])]).
  pose (entered name :=
    record_events (Sim.extracted sc)
      [EvExists (artifact "out" name ".json") true;
       EvLoad (artifact "out" name ".json") (Ret (Sim.info name))]).
  pose (normalized f name :=
    snd (recognize_and_normalize (Sim.env sc) "out" (base_name_of f) None
           false (Sim.info name)
           (record_events (Sim.extracted sc)
              [EvExists (artifact "out" f ".json") true;
               EvLoad (artifact "out" f ".json") (Ret (Sim.info name))]))).
  destruct (@batch_classification _ (Sim.env sc) "out" None false "in/b.pdf"
              (Sim.extracted sc) (Sim.info "b.pdf") (processed "b.pdf")
              (normalized "in/b.pdf" "b.pdf") (PList [product]) 1
              eq_refl eq_refl eq_refl eq_refl eq_refl) as [Hoff Hon].
  destruct (@batch_classification _ (Sim.env sc) "out" None false "in/a.pdf"
              (Sim.extracted sc) (Sim.info "a.pdf") (processed "a.pdf")
              (normalized "in/a.pdf" "a.pdf") (PList [product]) 1
              eq_refl eq_refl eq_refl eq_refl eq_refl) as [_ Hon'].
  unfold Sim.run_file. fold sc. rewrite Hoff.
  rewrite (Hon Sim.rejected _ _ (PBool false) eq_refl eq_refl eq_refl).
  rewrite (Hon' Sim.stored _ _ (PBool true) eq_refl eq_refl eq_refl).
  repeat split.
Defined.

(** A document the extractor cannot read: the error is the outcome of the
    call and nothing is written. *)
Lemma collaborator_failure_propagates_witness :
  let run := Sim.run_single Sim.single_unreadable true true in
  fst run = Raise (PyException "ExtractionError" "corrupt") /\
  dumped_paths (st_trace (snd run)) = [].
Proof.
  cbv zeta.
  destruct (@collaborator_failure_propagates _ (Sim.env Sim.single_unreadable)
              "docs/acme.pdf" "out" None true true Sim.start
              (fst (Sim.run_single Sim.single_unreadable true true))
              (snd (Sim.run_single Sim.single_unreadable true true))
              (st_trace (snd (Sim.run_single Sim.single_unreadable true true)))
              (PyException "ExtractionError" "corrupt")
              (surjective_pairing _) eq_refl) as [Hextract _].
  apply Hextract. vm_compute. right. left. reflexivity.
Defined.

(** One document, processed without and with storage. *)
Lemma storage_section_skipped_or_outcome_witness :
  let skipped := Sim.run_single Sim.single_ok false false in
  let kept := Sim.run_single Sim.single_ok false true in
  filter is_store_call (st_trace (snd skipped)) = [] /\
  py_getitem (Sim.summary_of skipped) "database_storage" =
    Ret (PDict [("skipped", PBool true)]) /\
  py_getitem (Sim.summary_of kept) "database_storage" = Ret Sim.stored.
Proof.
  cbv zeta.
  destruct (@storage_section_skipped_or_outcome _ (Sim.env Sim.single_ok)
              "docs/acme.pdf" "out" None false Sim.start)
    as (Hoff & _ & Hon).
  destruct (Hoff (fst (Sim.run_single Sim.single_ok false false))
              (snd (Sim.run_single Sim.single_ok false false))
              (st_trace (snd (Sim.run_single Sim.single_ok false false)))
              (surjective_pairing _) eq_refl) as [Hno Hsk].
  split; [exact Hno|]. split.
  - apply Hsk. vm_compute. reflexivity.
  - destruct (Hon (Sim.summary_of (Sim.run_single Sim.single_ok false true))
                (snd (Sim.run_single Sim.single_ok false true))
                (st_trace (snd (Sim.run_single Sim.single_ok false true)))
                eq_refl eq_refl)
      as (pd & db & Hcall & Hdb).
    vm_compute in Hcall. inversion Hcall. subst. exact Hdb.
Defined.

(** An existing directory without a matching file, given to [main]. *)
Lemma main_fails_on_empty_directory_witness :
  fst (Sim.run_batch Sim.empty_dir false true) = Ret no_files_result /\
  fst (Sim.run_main Sim.empty_dir "in" false) =
    Raise (PyException "KeyError" "successful").
Proof.
  destruct (@main_fails_on_empty_directory _ (Sim.env Sim.empty_dir)
              (Sim.cli "in" false) Sim.start [] eq_refl eq_refl eq_refl
              eq_refl) as [_ Hmain].
  split; [reflexivity|].
  unfold Sim.run_main. rewrite Hmain. reflexivity.
Defined.

(** An existing directory without a matching file: the marker is returned
    and the disk stays empty. *)
Lemma no_match_returns_marker_witness :
  fst (Sim.run_batch Sim.empty_dir true true) =
    Ret (PDict [("error", PStr "No PDF files found");
                ("file_count", PInt 0)]) /\
  st_world (snd (Sim.run_batch Sim.empty_dir true true)) = [].
Proof.
  destruct (@no_match_returns_marker _ (Sim.env Sim.empty_dir) "in" "out"
              None "*.pdf" true true 4 Sim.start [] eq_refl eq_refl)
    as [Hrun _].
  unfold Sim.run_batch. rewrite Hrun. split; reflexivity.
Defined.


(** * Further properties *)

(** ** Failures in single-document mode *)

Lemma py_get_raises v k d e : py_get v k d = Raise e -> reading_error e.
Proof.
  unfold py_get. destruct v; try (intros H; inversion H; eexists; left;
    reflexivity).
  destruct (assoc_get k d0); discriminate.
Qed.

Lemma py_keys_raises v e : py_keys v = Raise e -> reading_error e.
Proof.
  unfold py_keys. destruct v; try discriminate;
    intros H; inversion H; eexists; left; reflexivity.
Qed.

Lemma py_values_raises v e : py_values v = Raise e -> reading_error e.
Proof.
  unfold py_values. destruct v; try discriminate;
    intros H; inversion H; eexists; left; reflexivity.
Qed.

Lemma py_len_raises v e : py_len v = Raise e -> reading_error e.
Proof.
  unfold py_len. destruct v; try discriminate;
    intros H; inversion H; eexists; right; reflexivity.
Qed.

Lemma py_sum_len_raises vs : forall acc e,
  py_sum_len vs acc = Raise e -> reading_error e.
Proof.
  induction vs as [|v vs IH]; intros acc e H; [discriminate H|].
  simpl in H. destruct (py_len v) as [n|e'] eqn:E.
  - eapply IH. exact H.
  - inversion H; subst. eapply py_len_raises. exact E.
Qed.

Ltac reading_error_from_hyp :=
  match goal with
  | H : py_get _ _ _ = Raise ?e |- reading_error ?e =>
      eapply py_get_raises; exact H
  | H : py_keys _ = Raise ?e |- reading_error ?e =>
      eapply py_keys_raises; exact H
  | H : py_values _ = Raise ?e |- reading_error ?e =>
      eapply py_values_raises; exact H
  | H : py_len _ = Raise ?e |- reading_error ?e =>
      eapply py_len_raises; exact H
  | H : py_sum_len _ _ = Raise ?e |- reading_error ?e =>
      eapply py_sum_len_raises; exact H
  end.

(** X1: [process_single_pdf] has no handler: in every run at most the last
    call made has raised, and when it has, its exception is the outcome of
    the run.  This holds for creating the output directory, for every
    write and for the storage sink as for the three stages. *)
Theorem single_first_failure_is_outcome {world} (env : Env world) p out model
    save store s r s' evs :
  process_single_pdf env p out model save store s = (r, s') ->
  new_events s s' evs ->
  raised_only_last evs /\
  forall e, last_raised evs = Some e -> r = Raise e.
Proof.
  intros H Hev. unfold_script. simpl in H.
  repeat case_step H.
  all: inversion H; subst; clear H; known_events Hev.
  all: split; [simpl; repeat split; reflexivity|].
  all: simpl; intros e' He'; try discriminate He'; inversion He'; reflexivity.
Qed.

(** X2: when [process_single_pdf] raises although no call raised, the
    exception comes from reading a result ([get], [keys], [values] or [len]
    on a value of the wrong type), and it comes late: every artifact of the
    document has been written and, when storage is requested, the storage
    sink has been called once. *)
Theorem single_reading_failure_comes_last {world} (env : Env world) p out
    model save store s e s' evs :
  process_single_pdf env p out model save store s = (Raise e, s') ->
  new_events s s' evs ->
  last_raised evs = None ->
  reading_error e /\
  dumped_paths evs = single_artifacts out p save store /\
  List.length (filter is_store_call evs) = (if store then 1 else 0)%nat.
Proof.
  intros H Hev Hlast.
  unfold single_artifacts, artifact, base_name_of, when_.
  unfold_script. simpl in H.
  repeat case_step H.
  all: inversion H; subst; clear H; known_events Hev.
  all: simpl in Hlast; try discriminate Hlast.
  all: split; [reading_error_from_hyp|split; reflexivity].
Qed.

(** X3: the summary of a single-document run names the file by the base
    name of its path, reads [page_count] and [requires_ocr] from the
    extraction result with the defaults 0 and [False], and reports as
    [product_count] the length of the [products] of the normalized data,
    an absent [products] counting as empty. *)
Theorem summary_reads_results_with_defaults {world} (env : Env world) p out
    model save store s summary s' pdf_info entities_data processed_data
    db_result :
  process_single_pdf env p out model save store s = (Ret summary, s') ->
  new_events s s'
    (single_events out p model save store pdf_info entities_data
       processed_data db_result) ->
  summary_field summary "pdf_info" "filename" = Ret (PStr (basename p)) /\
  summary_field summary "pdf_info" "page_count" =
    py_get pdf_info "page_count" (PInt 0) /\
  summary_field summary "pdf_info" "requires_ocr" =
    py_get pdf_info "requires_ocr" (PBool false) /\
  exists products n,
    py_get processed_data "products" (PList []) = Ret products /\
    py_len products = Ret n /\
    summary_field summary "data_processing" "product_count" = Ret (PInt n).
Proof.
  intros H Hev. unfold single_events, artifact, base_name_of, when_ in Hev.
  unfold_script. simpl in H.
  repeat case_step H.
  all: inversion H; subst; clear H.
  all: unfold new_events in Hev; simpl in Hev;
    repeat rewrite <- app_assoc in Hev; simpl in Hev;
    apply app_inv_head in Hev; inversion Hev; subst; clear Hev.
  all: split; [reflexivity|]; split; [symmetry; assumption|]; split;
    [symmetry; assumption|].
  all: do 2 eexists; split; [eassumption|]; split; [eassumption|reflexivity].
Qed.

(** X4: on an existing file, [main] returns 0 whenever
    [process_single_pdf] returns, whatever the storage outcome says, and
    raises what [process_single_pdf] raises; it adds no call of its own. *)
Theorem main_file_outcome {world} (env : Env world) a s r s' :
  os_path_isfile env (arg_input a) (st_world s) = true ->
  process_single_pdf env (arg_input a) (arg_output_dir a) (arg_model a)
    (arg_save_intermediates a) (negb (arg_no_db a))
    (record_events s [EvIsfile (arg_input a) true]) = (r, s') ->
  main env a s =
    (match r with Ret _ => Ret 0 | Raise e => Raise e end, s').
Proof.
  intros Hf H. destruct r as [summary|e].
  - eapply main_single_completed; eassumption.
  - unfold main, isfile, observe. rewrite bind_run, Hf.
    fold (record_events s [EvIsfile (arg_input a) true]).
    rewrite bind_run, H. reflexivity.
Qed.

(** X5: on a directory in which at least one file matches, [main] returns
    0 whenever [process_directory] returns, however many files failed, and
    raises what [process_directory] raises. *)
Theorem main_directory_outcome {world} (env : Env world) a s w1 f fs r s' :
  os_path_isfile env (arg_input a) (st_world s) = false ->
  os_path_isdir env (arg_input a) (st_world s) = true ->
  os_makedirs env (arg_output_dir a) (st_world s) = (Ret tt, w1) ->
  glob_glob env (path_join (arg_input a) (arg_pattern a)) w1 =
    Ret (f :: fs) ->
  process_directory env (arg_input a) (arg_output_dir a) (arg_model a)
    (arg_pattern a) (arg_save_intermediates a) (negb (arg_no_db a))
    (arg_workers a)
    (record_events s
       [EvIsfile (arg_input a) false; EvIsdir (arg_input a) true]) =
    (r, s') ->
  main env a s =
    (match r with Ret _ => Ret 0 | Raise e => Raise e end, s').
Proof.
  intros Hf Hd Hmk Hgl H.
  rewrite (main_directory _ _ _ Hf Hd), H.
  destruct r as [summary|e]; [|reflexivity].
  rewrite (@process_directory_run _ env (arg_input a) (arg_output_dir a)
             (arg_model a) (arg_pattern a) (arg_save_intermediates a)
             (negb (arg_no_db a)) (arg_workers a)
             (record_events s
                [EvIsfile (arg_input a) false; EvIsdir (arg_input a) true])
             w1 f fs Hmk Hgl) in H.
  cbv zeta in H.
  destruct (process_pdf_batch _ _ _ _ _ _ _) as [[b|e] w2]; [|discriminate H].
  destruct (for_each _ _ _) as [[u|e] s3]; [|discriminate H].
  inversion H; subst. reflexivity.
Qed.

(** X7: the steps of [process_directory] before the loop are not
    protected: an exception raised by creating the output directory, by the
    enumeration or by the batch extractor is the outcome of the call, and
    the call ends there, before any file is looked at. *)
Theorem batch_setup_failure_aborts {world} (env : Env world) input_dir out
    model pat save store workers s e :
  (forall w1,
     os_makedirs env out (st_world s) = (Raise e, w1) ->
     process_directory env input_dir out model pat save store workers s =
       (Raise e, advance s w1 [EvMakedirs out (Raise e)] (st_locals s))) /\
  (forall w1,
     os_makedirs env out (st_world s) = (Ret tt, w1) ->
     glob_glob env (path_join input_dir pat) w1 = Raise e ->
     process_directory env input_dir out model pat save store workers s =
       (Raise e,
        advance s w1
          [EvMakedirs out (Ret tt);
           EvGlob (path_join input_dir pat) (Raise e)] (st_locals s))) /\
  (forall w1 f fs w2,
     os_makedirs env out (st_world s) = (Ret tt, w1) ->
     glob_glob env (path_join input_dir pat) w1 = Ret (f :: fs) ->
     process_pdf_batch env input_dir out workers (lstrip_star pat) true w1 =
       (Raise e, w2) ->
     process_directory env input_dir out model pat save store workers s =
       (Raise e,
        advance s w2
          [EvMakedirs out (Ret tt);
           EvGlob (path_join input_dir pat) (Ret (f :: fs));
           EvProcessPdfBatch input_dir out workers (lstrip_star pat) true
             (Raise e)] (st_locals s))).
Proof.
  split; [|split].
  - intros w1 Hmk. unfold process_directory. rewrite bind_run.
    unfold makedirs at 1, effect at 1. rewrite Hmk. reflexivity.
  - intros w1 Hmk Hgl. unfold process_directory. rewrite bind_run.
    unfold makedirs at 1, effect at 1. rewrite Hmk. rewrite bind_run.
    unfold glob at 1, query at 1, effect at 1. cbn [st_world]. rewrite Hgl.
    unfold advance. cbn [st_trace st_locals]. repeat rewrite <- app_assoc.
    reflexivity.
  - intros w1 f fs w2 Hmk Hgl Hb.
    rewrite (process_directory_run _ _ _ _ _ _ _ _ _ Hmk Hgl). cbv zeta.
    rewrite Hb. reflexivity.
Qed.

(** ** Calls and counters of a batch *)

Lemma py_len_nonneg v n : py_len v = Ret n -> 0 <= n.
Proof.
  unfold py_len. destruct v; try discriminate; intros H; inversion H; lia.
Qed.

(** The calls of one execution of the [try] block: at most one call of each
    later stage, each only after the one before, none of an extractor; the
    storage sink directly after the processed artifact; and the product
    count added on success is a length. *)
Lemma file_body_calls {world} (env : Env world) out model save store f s r s' :
  file_body env out model save store f s = (r, s') ->
  exists evs,
    new_events s s' evs /\
    store_follows_dump (artifact out f "_processed.json") None evs /\
    count_events is_extractor_call evs = 0%nat /\
    count_events is_batch_extractor_call evs = 0%nat /\
    (count_events is_recognizer_call evs <= 1)%nat /\
    (count_events is_normalizer_call evs <=
     count_events is_recognizer_call evs)%nat /\
    (count_events is_store_call evs <=
     count_events is_normalizer_call evs)%nat /\
    (store = false -> count_events is_store_call evs = 0%nat) /\
    match r with
    | Ret _ =>
        st_locals s' = set_failed (st_locals s) (failed (st_locals s) + 1) \/
        exists n, 0 <= n /\ st_locals s' = count_success (st_locals s) n
    | Raise _ => True
    end.
Proof.
  intros H. unfold artifact, base_name_of, count_events.
  unfold_script. simpl in H.
  repeat case_step H.
  all: finish_run H.
  all: eexists; split; [reflexivity|]; split;
    [simpl; repeat split; reflexivity|].
  all: simpl; repeat (split; [try reflexivity; try lia|]);
    try (intros Hst; try discriminate Hst; reflexivity).
  all: try exact I.
  all: try (left; reflexivity).
  all: right; eexists; split; [eapply py_len_nonneg; eassumption|reflexivity].
Qed.

Lemma count_events_app kind evs1 evs2 :
  count_events kind (evs1 ++ evs2) =
  (count_events kind evs1 + count_events kind evs2)%nat.
Proof.
  unfold count_events. now rewrite filter_app, length_app.
Qed.

(** One iteration makes the calls of its block, and nothing else. *)
Lemma file_iteration_calls {world} (env : Env world) out model save store f
    s r s' :
  file_iteration env out model save store f s = (r, s') ->
  exists evs,
    new_events s s' evs /\
    count_events is_extractor_call evs = 0%nat /\
    count_events is_batch_extractor_call evs = 0%nat /\
    (count_events is_recognizer_call evs <= 1)%nat /\
    (count_events is_normalizer_call evs <=
     count_events is_recognizer_call evs)%nat /\
    (count_events is_store_call evs <=
     count_events is_normalizer_call evs)%nat /\
    (store = false -> count_events is_store_call evs = 0%nat) /\
    (r = Ret tt ->
     successful (st_locals s) <= successful (st_locals s') /\
     failed (st_locals s) <= failed (st_locals s') /\
     products_found (st_locals s) <= products_found (st_locals s') /\
     (successful (st_locals s') = successful (st_locals s) ->
      products_found (st_locals s') = products_found (st_locals s))).
Proof.
  unfold file_iteration, try_except_Exception. intros H.
  destruct (file_body env out model save store f s) as [[u|e] s1] eqn:E.
  - inversion H; subst; clear H.
    apply file_body_calls in E.
    destruct E as (evs & Hev & _ & H1 & H2 & H3 & H4 & H5 & H6 & Hl).
    exists evs. repeat (split; [assumption|]). intros _.
    destruct Hl as [Hl | (n & Hn & Hl)]; rewrite Hl; simpl;
      repeat split; lia.
  - pose proof (file_body_spec _ _ _ _ _ _ _ E) as Hs.
    destruct Hs as (_ & _ & _ & _ & _ & Hsame).
    apply file_body_calls in E.
    destruct E as (evs & Hev & _ & H1 & H2 & H3 & H4 & H5 & H6 & _).
    destruct (is_Exception e).
    + unfold incr_failed, update_locals in H. inversion H; subst; clear H.
      exists evs. repeat (split; [assumption|]). intros _.
      simpl. rewrite Hsame. repeat split; lia.
    + inversion H; subst; clear H.
      exists evs. repeat (split; [assumption|]). discriminate.
Qed.

(** The calls and the counters of the whole loop. *)
Lemma batch_loop_calls {world} (env : Env world) out model save store files :
  forall s r s',
    for_each files (file_iteration env out model save store) s = (r, s') ->
    exists evs,
      new_events s s' evs /\
      count_events is_extractor_call evs = 0%nat /\
      count_events is_batch_extractor_call evs = 0%nat /\
      (count_events is_recognizer_call evs <= List.length files)%nat /\
      (count_events is_normalizer_call evs <=
       count_events is_recognizer_call evs)%nat /\
      (count_events is_store_call evs <=
       count_events is_normalizer_call evs)%nat /\
      (store = false -> count_events is_store_call evs = 0%nat) /\
      (r = Ret tt ->
       successful (st_locals s) <= successful (st_locals s') /\
       failed (st_locals s) <= failed (st_locals s') /\
       products_found (st_locals s) <= products_found (st_locals s') /\
       (successful (st_locals s') = successful (st_locals s) ->
        products_found (st_locals s') = products_found (st_locals s))).
Proof.
  induction files as [|f files IH]; intros s r s' H.
  - inversion H; subst; clear H. exists []. split; [apply new_events_refl|].
    cbn. repeat split; try lia.
  - cbn [for_each] in H. rewrite bind_run in H.
    destruct (file_iteration env out model save store f s) as [[u|e] s1] eqn:E;
      apply file_iteration_calls in E;
      destruct E as (evs1 & Hev1 & A1 & A2 & A3 & A4 & A5 & A6 & Al).
    + destruct u. specialize (Al eq_refl).
      apply IH in H.
      destruct H as (evs2 & Hev2 & B1 & B2 & B3 & B4 & B5 & B6 & Bl).
      exists (evs1 ++ evs2).
      split; [eapply new_events_trans; eassumption|].
      rewrite !count_events_app. cbn [List.length].
      split; [lia|]. split; [lia|]. split; [lia|]. split; [lia|].
      split; [lia|]. split.
      * intros Hst. rewrite (A6 Hst), (B6 Hst). reflexivity.
      * intros Hr. specialize (Bl Hr).
        destruct Al as (Al1 & Al2 & Al3 & Al4).
        destruct Bl as (Bl1 & Bl2 & Bl3 & Bl4).
        repeat split; lia.
    + inversion H; subst; clear H. exists evs1.
      split; [assumption|]. cbn [List.length].
      split; [assumption|]. split; [assumption|]. split; [lia|].
      split; [assumption|]. split; [assumption|]. split; [assumption|].
      discriminate.
Qed.

(** X9: in both modes the storage sink is only ever called directly after
    the write of [<base>_processed.json] has returned, and with the value
    written there. *)
Theorem storage_follows_processed_artifact {world} (env : Env world) out
    model save store :
  (forall p s r s' evs,
     process_single_pdf env p out model save store s = (r, s') ->
     new_events s s' evs ->
     store_follows_dump (artifact out p "_processed.json") None evs) /\
  (forall f s r s' evs,
     file_body env out model save store f s = (r, s') ->
     new_events s s' evs ->
     store_follows_dump (artifact out f "_processed.json") None evs).
Proof.
  split.
  - intros p s r s' evs H Hev. unfold artifact, base_name_of.
    unfold_script. simpl in H.
    repeat case_step H.
    all: inversion H; subst; clear H; known_events Hev.
    all: simpl; repeat split; reflexivity.
  - intros f s r s' evs H Hev. apply file_body_calls in H.
    destruct H as (evs' & Hev' & Hord & _).
    rewrite (new_events_inj Hev Hev'). exact Hord.
Qed.

(** X10: in the summary of a batch run that returns, [successful] and
    [failed] lie between 0 and [file_count], [products_found] is not
    negative, and no product is counted when no file succeeded. *)
Theorem batch_summary_bounds {world} (env : Env world) input_dir out model pat
    save store workers s w1 f fs summary s' :
  os_makedirs env out (st_world s) = (Ret tt, w1) ->
  glob_glob env (path_join input_dir pat) w1 = Ret (f :: fs) ->
  process_directory env input_dir out model pat save store workers s =
    (Ret summary, s') ->
  let n := Z.of_nat (List.length (f :: fs)) in
  exists l,
    summary = batch_summary n l /\
    0 <= successful l <= n /\
    0 <= failed l <= n /\
    0 <= products_found l /\
    (successful l = 0 -> products_found l = 0).
Proof.
  intros Hmk Hgl H. cbv zeta.
  rewrite (process_directory_run _ _ _ _ _ _ _ _ _ Hmk Hgl) in H.
  cbv zeta in H.
  destruct (process_pdf_batch _ _ _ _ _ _ _) as [[b|e] w2];
    [|discriminate H].
  destruct (for_each _ _ _) as [[u|e] s3] eqn:E; [|discriminate H].
  inversion H; subst; clear H. destruct u.
  pose proof (batch_loop_spec _ _ _ _ _ _ _ E) as (evs1 & _ & _ & Hsum).
  pose proof (batch_loop_calls _ _ _ _ _ _ _ E)
    as (evs2 & _ & _ & _ & _ & _ & _ & _ & Hmono).
  specialize (Hmono eq_refl). cbn [advance st_locals zero_counters successful
    failed products_found] in Hsum, Hmono.
  destruct Hmono as (M1 & M2 & M3 & M4).
  exists (st_locals s'). split; [reflexivity|].
  repeat split; lia.
Qed.

(** An iteration without extraction artifact. *)
Lemma file_iteration_missing {world} (env : Env world) out model save store
    f s :
  os_path_exists env (artifact out f ".json") (st_world s) = false ->
  file_iteration env out model save store f s =
    (Ret tt,
     advance s (st_world s) [EvExists (artifact out f ".json") false]
       (set_failed (st_locals s) (failed (st_locals s) + 1))).
Proof.
  intros Hf. unfold artifact, base_name_of in *. unfold_script.
  rewrite Hf. reflexivity.
Qed.

(** The loop over files none of which has an extraction artifact. *)
Lemma batch_loop_all_missing {world} (env : Env world) out model save store
    files :
  forall s,
    (forall g, In g files ->
       os_path_exists env (artifact out g ".json") (st_world s) = false) ->
    for_each files (file_iteration env out model save store) s =
      (Ret tt,
       advance s (st_world s)
         (map (fun g => EvExists (artifact out g ".json") false) files)
         (set_failed (st_locals s)
            (failed (st_locals s) + Z.of_nat (List.length files)))).
Proof.
  induction files as [|g files IH]; intros s Hmiss.
  - unfold advance, set_failed. cbn. rewrite app_nil_r, Z.add_0_r.
    destruct s as [w t [a b c]]. reflexivity.
  - cbn [for_each]. rewrite bind_run.
    rewrite (file_iteration_missing _ _ _ _ _ _ _ (Hmiss g (or_introl eq_refl))).
    rewrite IH.
    + unfold advance, set_failed. cbn [st_world st_trace st_locals successful
        failed products_found map List.length].
      rewrite <- app_assoc. cbn [app].
      replace (failed (st_locals s) + 1 + Z.of_nat (List.length files))
        with (failed (st_locals s) + Z.of_nat (S (List.length files)))
        by lia.
      reflexivity.
    + intros g' Hin. cbn [advance st_world]. apply Hmiss. now right.
Qed.

(** X12: when none of the enumerated files has its extraction artifact
    after the batch extractor returned, [process_directory] returns a
    summary that counts every file as failed, having only tested the
    artifact of each file in order: no later stage is called and nothing is
    written. *)
Theorem batch_without_artifacts_fails_every_file {world} (env : Env world)
    input_dir out model pat save store workers s w1 f fs b w2 :
  os_makedirs env out (st_world s) = (Ret tt, w1) ->
  glob_glob env (path_join input_dir pat) w1 = Ret (f :: fs) ->
  process_pdf_batch env input_dir out workers (lstrip_star pat) true w1 =
    (Ret b, w2) ->
  (forall g, In g (f :: fs) ->
     os_path_exists env (artifact out g ".json") w2 = false) ->
  let n := Z.of_nat (List.length (f :: fs)) in
  process_directory env input_dir out model pat save store workers s =
    (Ret (batch_summary n (all_failed n)),
     advance s w2
       ([EvMakedirs out (Ret tt);
         EvGlob (path_join input_dir pat) (Ret (f :: fs));
         EvProcessPdfBatch input_dir out workers (lstrip_star pat) true
           (Ret b)] ++
        map (fun g => EvExists (artifact out g ".json") false) (f :: fs))
       (all_failed n)).
Proof.
  intros Hmk Hgl Hb Hmiss. cbv zeta.
  rewrite (process_directory_run _ _ _ _ _ _ _ _ _ Hmk Hgl). cbv zeta.
  rewrite Hb. rewrite batch_loop_all_missing; [|exact Hmiss].
  unfold advance, all_failed, set_failed, zero_counters.
  cbn [st_world st_trace st_locals successful failed products_found].
  rewrite <- !app_assoc. rewrite Z.add_0_l. reflexivity.
Qed.

(** The files written by the loop are artifacts of the files it ran over. *)
Lemma batch_loop_writes {world} (env : Env world) out model save store files :
  forall s r s',
    for_each files (file_iteration env out model save store) s = (r, s') ->
    exists evs,
      new_events s s' evs /\
      forall path,
        In path (dumped_paths evs) ->
        exists f,
          In f files /\ In path (batch_artifacts out f save store).
Proof.
  induction files as [|f files IH]; intros s r s' H.
  - inversion H; subst; clear H. exists []. split; [apply new_events_refl|].
    intros path [].
  - cbn [for_each] in H. rewrite bind_run in H.
    destruct (file_iteration env out model save store f s) as [[u|e] s1] eqn:E;
      apply file_iteration_spec in E;
      destruct E as (evs1 & Hev1 & _ & (rest & Hpre) & _).
    + apply IH in H. destruct H as (evs2 & Hev2 & Hw).
      exists (evs1 ++ evs2).
      split; [eapply new_events_trans; eassumption|].
      intros path Hin. rewrite dumped_paths_app in Hin.
      apply in_app_or in Hin. destruct Hin as [Hin|Hin].
      * exists f. split; [now left|]. rewrite Hpre.
        apply in_or_app. now left.
      * destruct (Hw path Hin) as (g & Hg & Hp). exists g.
        split; [now right | exact Hp].
    + inversion H; subst; clear H. exists evs1. split; [assumption|].
      intros path Hin. exists f. split; [now left|]. rewrite Hpre.
      apply in_or_app. now left.
Qed.

(** X11: every file written during a batch run is one of the artifacts
    ([_entities], [_processed], [_db_result]) of one of the enumerated files;
    a run that enumerates nothing writes nothing. *)
Theorem batch_writes_only_artifacts_of_its_files {world} (env : Env world)
    input_dir out model pat save store workers s w1 files r s' evs path :
  os_makedirs env out (st_world s) = (Ret tt, w1) ->
  glob_glob env (path_join input_dir pat) w1 = Ret files ->
  process_directory env input_dir out model pat save store workers s =
    (r, s') ->
  new_events s s' evs ->
  In path (dumped_paths evs) ->
  exists f, In f files /\ In path (batch_artifacts out f save store).
Proof.
  intros Hmk Hgl H Hev Hin. destruct files as [|f fs].
  - rewrite (@process_directory_no_match _ env input_dir out model pat save
               store workers s w1 Hmk Hgl) in H.
    inversion H; subst; clear H. unfold new_events, advance in Hev.
    cbn [st_trace] in Hev. apply app_inv_head in Hev. subst evs.
    destruct Hin.
  - rewrite (process_directory_run _ _ _ _ _ _ _ _ _ Hmk Hgl) in H.
    cbv zeta in H.
    destruct (process_pdf_batch _ _ _ _ _ _ _) as [[b|e] w2].
    + assert (Hloop : exists r0 s3,
        for_each (f :: fs) (file_iteration env out model save store)
          (advance s w2
             ([EvMakedirs out (Ret tt);
               EvGlob (path_join input_dir pat) (Ret (f :: fs))] ++
              [EvProcessPdfBatch input_dir out workers (lstrip_star pat)
                 true (Ret b)]) zero_counters) = (r0, s3) /\
        st_trace s' = st_trace s3).
      { destruct (for_each _ _ _) as [[u|e] s3]; inversion H; subst;
          eauto. }
      destruct Hloop as (r0 & s3 & Hloop & Htr).
      apply batch_loop_writes in Hloop. destruct Hloop as (evs2 & Hev2 & Hw).
      unfold new_events, advance in *. cbn [st_trace] in Hev2.
      rewrite Htr, Hev2, <- app_assoc in Hev. apply app_inv_head in Hev.
      subst evs. rewrite dumped_paths_app in Hin.
      apply in_app_or in Hin. destruct Hin as [Hin|Hin]; [destruct Hin|].
      exact (Hw path Hin).
    + inversion H; subst; clear H. unfold new_events, advance in Hev.
      cbn [st_trace] in Hev. apply app_inv_head in Hev. subst evs.
      destruct Hin.
Qed.

(** ** The system check script *)

Ltac unfold_checks :=
  unfold TestSystem.main, TestSystem.check_directories,
    TestSystem.check_database, TestSystem.check_pdf_processing,
    TestSystem.check_nlp_pipeline, TestSystem.check_api,
    TestSystem.either_missing, TestSystem.is_module_available,
    TestSystem.ttry, TestSystem.tlift, TestSystem.ask, TestSystem.act,
    TestSystem.tbind, TestSystem.tret in *.



(** X13: the exit status of the system check: when the five checks
    return, [main] returns 0 if every result is true and 1 otherwise; a
    result [None] counts as a failure. *)
Theorem system_check_exit_status {world} (host : TestSystem.Host world) a
    t r1 t1 r2 t2 r3 t3 r4 t4 r5 t5 :
  TestSystem.check_directories host t = (Ret r1, t1) ->
  TestSystem.check_database host (TestSystem.skip_db a) t1 = (Ret r2, t2) ->
  TestSystem.check_pdf_processing host (TestSystem.skip_pdf a) t2 =
    (Ret r3, t3) ->
  TestSystem.check_nlp_pipeline host (TestSystem.skip_nlp a) t3 =
    (Ret r4, t4) ->
  TestSystem.check_api host (TestSystem.skip_api a) t4 = (Ret r5, t5) ->
  TestSystem.main host a t =
    (Ret (if forallb py_truthy [r1; r2; r3; r4; r5] then 0 else 1), t5).
Proof.
  intros H1 H2 H3 H4 H5. unfold TestSystem.main, TestSystem.tbind.
  rewrite H1, H2, H3, H4, H5.
  unfold TestSystem.tret, TestSystem.exit_status, TestSystem.count_passed.
  cbn [filter snd forallb List.length].
  destruct (py_truthy r1), (py_truthy r2), (py_truthy r3), (py_truthy r4),
    (py_truthy r5); reflexivity.
Qed.


Lemma check_pdf_without_pdf {world} (host : TestSystem.Host world) t v t' :
  (forall w, TestSystem.host_glob_pdf host w = []) ->
  TestSystem.check_pdf_processing host false t = (Ret v, t') ->
  v = PBool false.
Proof.
  intros Hno H. unfold_checks. simpl in H.
  repeat first [rewrite Hno in H; simpl in H | case_step H];
    now inversion H.
Qed.

Lemma check_nlp_without_pdf {world} (host : TestSystem.Host world) t v t' :
  (forall w, TestSystem.host_glob_pdf host w = []) ->
  TestSystem.check_nlp_pipeline host false t = (Ret v, t') ->
  v = PBool false.
Proof.
  intros Hno H. unfold_checks. simpl in H.
  repeat first [rewrite Hno in H; simpl in H | case_step H];
    now inversion H.
Qed.

(** X15: without a PDF in [data/raw], [main] cannot return 0 unless both
    the PDF check and the NLP check are skipped: either of them returns
    [False] when the directory holds no PDF. *)
Theorem system_check_fails_without_pdf {world} (host : TestSystem.Host world)
    a t n t' :
  (forall w, TestSystem.host_glob_pdf host w = []) ->
  TestSystem.skip_pdf a = false \/ TestSystem.skip_nlp a = false ->
  TestSystem.main host a t = (Ret n, t') ->
  n = 1.
Proof.
  intros Hno Hskip H. unfold TestSystem.main, TestSystem.tbind in H.
  destruct (TestSystem.check_directories host t) as [[r1|e] t1];
    [|discriminate H].
  destruct (TestSystem.check_database host _ t1) as [[r2|e] t2];
    [|discriminate H].
  destruct (TestSystem.check_pdf_processing host _ t2) as [[r3|e] t3] eqn:E3;
    [|discriminate H].
  destruct (TestSystem.check_nlp_pipeline host _ t3) as [[r4|e] t4] eqn:E4;
    [|discriminate H].
  destruct (TestSystem.check_api host _ t4) as [[r5|e] t5];
    [|discriminate H].
  unfold TestSystem.tret, TestSystem.exit_status, TestSystem.count_passed in H.
  cbn [filter snd List.length] in H. inversion H; subst; clear H.
  destruct Hskip as [Hs|Hs]; rewrite Hs in *.
  - rewrite (check_pdf_without_pdf _ _ Hno E3).
    destruct (py_truthy r1), (py_truthy r2), (py_truthy r4), (py_truthy r5);
      reflexivity.
  - rewrite (check_nlp_without_pdf _ _ Hno E4).
    destruct (py_truthy r1), (py_truthy r2), (py_truthy r3), (py_truthy r5);
      reflexivity.
Qed.


(** ** Further runs in the simulated environments *)

(** A storage sink that raises ends the run after the processed artifact. *)
Lemma single_first_failure_is_outcome_witness :
  let run := Sim.run_single Cases.single_sink_down false true in
  fst run = Raise (PyException "OperationalError" "connection refused") /\
  raised_only_last (st_trace (snd run)) /\
  dumped_paths (st_trace (snd run)) = ["out/acme_processed.json"].
Proof.
  cbv zeta. unfold Sim.run_single.
  set (run := process_single_pdf (Sim.env Cases.single_sink_down)
                "docs/acme.pdf" "out" None false true Sim.start).
  destruct (@single_first_failure_is_outcome _
              (Sim.env Cases.single_sink_down) "docs/acme.pdf" "out" None
              false true Sim.start (fst run) (snd run) (st_trace (snd run))
              (surjective_pairing run) eq_refl) as [Honly Hout].
  split; [apply Hout; vm_compute; reflexivity|].
  split; [exact Honly | vm_compute; reflexivity].
Defined.

(** A list in place of the dictionary of entities: the call raises, after
    both artifacts were written and the sink was called. *)
Lemma single_reading_failure_comes_last_witness :
  let run := Sim.run_single Cases.single_malformed false true in
  fst run = Raise (PyException "AttributeError" "keys") /\
  reading_error (PyException "AttributeError" "keys") /\
  dumped_paths (st_trace (snd run)) =
    ["out/acme_processed.json"; "out/acme_db_result.json"] /\
  List.length (filter is_store_call (st_trace (snd run))) = 1%nat.
Proof.
  cbv zeta. unfold Sim.run_single.
  set (run := process_single_pdf (Sim.env Cases.single_malformed)
                "docs/acme.pdf" "out" None false true Sim.start).
  assert (Hfst : fst run = Raise (PyException "AttributeError" "keys"))
    by (vm_compute; reflexivity).
  assert (Hrun : process_single_pdf (Sim.env Cases.single_malformed)
                   "docs/acme.pdf" "out" None false true Sim.start =
                 (Raise (PyException "AttributeError" "keys"), snd run))
    by (rewrite <- Hfst; apply surjective_pairing).
  destruct (@single_reading_failure_comes_last _
              (Sim.env Cases.single_malformed) "docs/acme.pdf" "out" None
              false true Sim.start _ (snd run) (st_trace (snd run))
              Hrun eq_refl) as (Herr & Hdump & Hstore);
    [vm_compute; reflexivity|].
  split; [exact Hfst|]. split; [exact Herr|]. split; [|exact Hstore].
  rewrite Hdump. reflexivity.
Defined.

(** Empty results: the summary falls back on 0 pages, no OCR and 0
    products. *)
Lemma summary_reads_results_with_defaults_witness :
  let summary :=
    Sim.summary_of (Sim.run_single Cases.single_bare false true) in
  summary_field summary "pdf_info" "filename" = Ret (PStr "acme.pdf") /\
  summary_field summary "pdf_info" "page_count" = Ret (PInt 0) /\
  summary_field summary "pdf_info" "requires_ocr" = Ret (PBool false) /\
  summary_field summary "data_processing" "product_count" = Ret (PInt 0).
Proof.
  cbv zeta. unfold Sim.run_single.
  set (run := process_single_pdf (Sim.env Cases.single_bare)
                "docs/acme.pdf" "out" None false true Sim.start).
  assert (Hfst : fst run = Ret (Sim.summary_of run))
    by (vm_compute; reflexivity).
  assert (Hrun : process_single_pdf (Sim.env Cases.single_bare)
                   "docs/acme.pdf" "out" None false true Sim.start =
                 (Ret (Sim.summary_of run), snd run))
    by (rewrite <- Hfst; apply surjective_pairing).
  destruct (@summary_reads_results_with_defaults _
              (Sim.env Cases.single_bare) "docs/acme.pdf" "out" None false
              true Sim.start _ (snd run) (PDict []) (PDict []) (PDict [])
              Sim.stored Hrun)
    as (Hname & Hpages & Hocr & products & n & Hprod & Hlen & Hcount);
    [vm_compute; reflexivity|].
  split; [exact Hname|]. split; [exact Hpages|]. split; [exact Hocr|].
  vm_compute in Hprod. inversion Hprod; subst products.
  vm_compute in Hlen. inversion Hlen; subst n. exact Hcount.
Defined.

(** [main] on a document. *)
Lemma main_file_outcome_witness :
  fst (Sim.run_main Sim.single_ok "docs/acme.pdf" false) = Ret 0.
Proof.
  unfold Sim.run_main.
  set (run := process_single_pdf (Sim.env Sim.single_ok) "docs/acme.pdf"
                "out" None false true
                (record_events Sim.start [EvIsfile "docs/acme.pdf" true])).
  rewrite (@main_file_outcome _ (Sim.env Sim.single_ok)
             (Sim.cli "docs/acme.pdf" false) Sim.start (fst run) (snd run)
             eq_refl (surjective_pairing run)).
  vm_compute. reflexivity.
Defined.

(** [main] on a directory of three files, one of which fails. *)
Lemma main_directory_outcome_witness :
  fst (Sim.run_main Sim.batch_missing_b "in" false) = Ret 0.
Proof.
  unfold Sim.run_main.
  set (run := process_directory (Sim.env Sim.batch_missing_b) "in" "out"
                None "*.pdf" false true 4
                (record_events Sim.start
                   [EvIsfile "in" false; EvIsdir "in" true])).
  rewrite (@main_directory_outcome _ (Sim.env Sim.batch_missing_b)
             (Sim.cli "in" false) Sim.start [] "in/a.pdf"
             ["in/b.pdf"; "in/c.pdf"] (fst run) (snd run)
             eq_refl eq_refl eq_refl eq_refl (surjective_pairing run)).
  vm_compute. reflexivity.
Defined.

(** [main] on an input that does not exist. *)
Lemma main_status_witness :
  fst (Sim.run_main Sim.nowhere "in" false) = Ret 1 /\ 1 <> 0.
Proof.
  unfold Sim.run_main.
  set (run := main (Sim.env Sim.nowhere) (Sim.cli "in" false) Sim.start).
  assert (Hfst : fst run = Ret 1) by (vm_compute; reflexivity).
  assert (Hrun : main (Sim.env Sim.nowhere) (Sim.cli "in" false) Sim.start =
                 (Ret 1, snd run))
    by (rewrite <- Hfst; apply surjective_pairing).
  destruct (main_status _ _ _ Hrun) as [_ [_ Hneq]].
  split; [exact Hfst|]. apply Hneq. split; reflexivity.
Defined.

(** A batch extractor that raises: the exception leaves
    [process_directory] before any file is looked at. *)
Lemma batch_setup_failure_aborts_witness :
  let run :=
    process_directory (Cases.env_batch_down Sim.batch_missing_b) "in" "out"
      None "*.pdf" false true 4 Sim.start in
  fst run = Raise Cases.pool_broken /\
  checked_paths (st_trace (snd run)) = [].
Proof.
  cbv zeta.
  destruct (@batch_setup_failure_aborts _
              (Cases.env_batch_down Sim.batch_missing_b) "in" "out" None
              "*.pdf" false true 4 Sim.start Cases.pool_broken)
    as (_ & _ & Hbatch).
  rewrite (Hbatch [] "in/a.pdf" ["in/b.pdf"; "in/c.pdf"] [] eq_refl eq_refl
             eq_refl).
  split; reflexivity.
Defined.

(** The storage calls of a document and of a batch file follow the write
    of their processed artifact. *)
Lemma storage_follows_processed_artifact_witness :
  store_follows_dump "out/acme_processed.json" None
    (st_trace (snd (Sim.run_single Sim.single_ok true true))) /\
  store_follows_dump "out/b_processed.json" None
    (st_trace
       (snd (file_body (Sim.env Sim.batch_rejected_b) "out" None true true
               "in/b.pdf" (Sim.extracted Sim.batch_rejected_b)))).
Proof.
  destruct (@storage_follows_processed_artifact _ (Sim.env Sim.single_ok)
              "out" None true true) as [Hsingle _].
  destruct (@storage_follows_processed_artifact _
              (Sim.env Sim.batch_rejected_b) "out" None true true)
    as [_ Hbatch].
  split.
  - unfold Sim.run_single.
    set (run := process_single_pdf (Sim.env Sim.single_ok) "docs/acme.pdf"
                  "out" None true true Sim.start).
    exact (Hsingle "docs/acme.pdf" Sim.start (fst run) (snd run)
             (st_trace (snd run)) (surjective_pairing run) eq_refl).
  - set (run := file_body (Sim.env Sim.batch_rejected_b) "out" None true
                  true "in/b.pdf" (Sim.extracted Sim.batch_rejected_b)).
    exact (Hbatch "in/b.pdf" (Sim.extracted Sim.batch_rejected_b) (fst run)
             (snd run) (st_trace (snd run)) (surjective_pairing run) eq_refl).
Defined.

(** Two files, one rejected by the sink: the counters stay within the
    number of files. *)
Lemma batch_summary_bounds_witness :
  exists l,
    Sim.summary_of (Sim.run_batch Sim.batch_rejected_b false true) =
      batch_summary 2 l /\
    0 <= successful l <= 2 /\ 0 <= failed l <= 2 /\ 0 <= products_found l.
Proof.
  unfold Sim.run_batch.
  set (run := process_directory (Sim.env Sim.batch_rejected_b) "in" "out"
                None "*.pdf" false true 4 Sim.start).
  assert (Hfst : fst run = Ret (Sim.summary_of run))
    by (vm_compute; reflexivity).
  assert (Hrun : process_directory (Sim.env Sim.batch_rejected_b) "in" "out"
                   None "*.pdf" false true 4 Sim.start =
                 (Ret (Sim.summary_of run), snd run))
    by (rewrite <- Hfst; apply surjective_pairing).
  destruct (@batch_summary_bounds _ (Sim.env Sim.batch_rejected_b) "in" "out"
              None "*.pdf" false true 4 Sim.start [] "in/a.pdf" ["in/b.pdf"]
              _ (snd run) eq_refl eq_refl Hrun)
    as (l & Hs & H1 & H2 & H3 & _).
  exists l. split; [exact Hs|]. split; [exact H1|]. split; [exact H2|].
  exact H3.
Defined.

(** A file written by the batch is an artifact of one of its files. *)
Lemma batch_writes_only_artifacts_of_its_files_witness :
  exists f,
    In f Sim.three_files /\
    In "out/c_entities.json" (batch_artifacts "out" f true true).
Proof.
  set (run := process_directory (Sim.env Sim.batch_missing_b) "in" "out"
                None "*.pdf" true true 4 Sim.start).
  apply (@batch_writes_only_artifacts_of_its_files _
           (Sim.env Sim.batch_missing_b) "in" "out" None "*.pdf" true true 4
           Sim.start [] Sim.three_files (fst run) (snd run)
           (st_trace (snd run)) "out/c_entities.json" eq_refl eq_refl
           (surjective_pairing run) eq_refl).
  vm_compute. do 3 right. left. reflexivity.
Defined.

(** Nothing extracted: three failed files and no stage called. *)
Lemma batch_without_artifacts_fails_every_file_witness :
  let run := Sim.run_batch Cases.batch_nothing_extracted false true in
  fst run = Ret (batch_summary 3 (all_failed 3)) /\
  filter is_collaborator_call (st_trace (snd run)) =
    [EvProcessPdfBatch "in" "out" 4 ".pdf" true (Ret PNone)].
Proof.
  cbv zeta. unfold Sim.run_batch.
  rewrite (@batch_without_artifacts_fails_every_file _
             (Sim.env Cases.batch_nothing_extracted) "in" "out" None "*.pdf"
             false true 4 Sim.start [] "in/a.pdf" ["in/b.pdf"; "in/c.pdf"]
             PNone [] eq_refl eq_refl eq_refl).
  - split; reflexivity.
  - intros g Hg. reflexivity.
Defined.

(** Everything runs, but [SELECT 1] returns no row: the database check
    yields [None] and the exit status is 1. *)
Lemma system_check_exit_status_witness :
  fst (TestSystem.main (TestSystem.sim_host TestSystem.no_row)
         TestSystem.none_skipped (TestSystem.boot TestSystem.no_row)) =
    Ret 1.
Proof.
  set (host := TestSystem.sim_host TestSystem.no_row).
  set (t := TestSystem.boot TestSystem.no_row).
  set (t1 := snd (TestSystem.check_directories host t)).
  set (t2 := snd (TestSystem.check_database host false t1)).
  set (t3 := snd (TestSystem.check_pdf_processing host false t2)).
  set (t4 := snd (TestSystem.check_nlp_pipeline host false t3)).
  set (t5 := snd (TestSystem.check_api host false t4)).
  assert (H1 : TestSystem.check_directories host t = (Ret (PBool true), t1))
    by (vm_compute; reflexivity).
  assert (H2 : TestSystem.check_database host false t1 = (Ret PNone, t2))
    by (vm_compute; reflexivity).
  assert (H3 : TestSystem.check_pdf_processing host false t2 =
               (Ret (PBool true), t3)) by (vm_compute; reflexivity).
  assert (H4 : TestSystem.check_nlp_pipeline host false t3 =
               (Ret (PBool true), t4)) by (vm_compute; reflexivity).
  assert (H5 : TestSystem.check_api host false t4 = (Ret (PBool true), t5))
    by (vm_compute; reflexivity).
  rewrite (@system_check_exit_status _ host TestSystem.none_skipped t _ _ _ _
             _ _ _ _ _ _ H1 H2 H3 H4 H5).
  reflexivity.
Defined.


(** Everything installed but no PDF in [data/raw]: status 1. *)
Lemma system_check_fails_without_pdf_witness :
  fst (TestSystem.main (TestSystem.sim_host TestSystem.no_pdf)
         TestSystem.none_skipped (TestSystem.boot TestSystem.no_pdf)) =
    Ret 1.
Proof.
  set (run := TestSystem.main (TestSystem.sim_host TestSystem.no_pdf)
                TestSystem.none_skipped (TestSystem.boot TestSystem.no_pdf)).
  destruct (fst run) as [n|e] eqn:E; [|vm_compute in E; discriminate E].
  assert (Hrun : TestSystem.main (TestSystem.sim_host TestSystem.no_pdf)
                   TestSystem.none_skipped
                   (TestSystem.boot TestSystem.no_pdf) = (Ret n, snd run))
    by (rewrite <- E; apply surjective_pairing).
  f_equal.
  exact (@system_check_fails_without_pdf _
           (TestSystem.sim_host TestSystem.no_pdf) TestSystem.none_skipped
           (TestSystem.boot TestSystem.no_pdf) n (snd run)
           (fun _ => eq_refl) (or_introl eq_refl) Hrun).
Defined.


(** * The calls recorded are the calls made *)

Lemma calls_made_app {world} (env : Env world) evs1 :
  forall w w1 evs2 w2,
    calls_made env w evs1 w1 ->
    calls_made env w1 evs2 w2 ->
    calls_made env w (evs1 ++ evs2) w2.
Proof.
  induction evs1 as [|ev evs1 IH]; intros w w1 evs2 w2 H1 H2.
  - cbn in H1. subst w1. exact H2.
  - destruct H1 as (w0 & Hc & H1). exists w0. split; [exact Hc|].
    eapply IH; eassumption.
Qed.

Lemma missing_tests_app evs1 evs2 :
  missing_tests (evs1 ++ evs2) = missing_tests evs1 + missing_tests evs2.
Proof.
  unfold missing_tests. rewrite count_events_app. lia.
Qed.

Ltac calls_made_from_hyps :=
  simpl;
  repeat (eexists; split;
          [first [eassumption | split; [eassumption|reflexivity]
                 | split; reflexivity]|]);
  reflexivity.

(** The calls of a single-document run are made on the environment, each
    in the world the one before left; a result that is to be written is
    written by the very next call. *)
Lemma single_run_calls_made {world} (env : Env world) p out model save store
    s r s' :
  process_single_pdf env p out model save store s = (r, s') ->
  exists evs,
    new_events s s' evs /\
    calls_made env (st_world s) evs (st_world s') /\
    written_next result_of_normalizer (artifact out p "_processed.json")
      false evs /\
    written_next result_of_sink (artifact out p "_db_result.json") true
      evs /\
    (save = true ->
     written_next result_of_extractor (artifact out p "_text.json") false
       evs /\
     written_next result_of_recognizer (artifact out p "_entities.json")
       false evs).
Proof.
  intros H. unfold artifact, base_name_of.
  unfold_script. simpl in H.
  repeat case_step H.
  all: inversion H; subst; clear H; flatten_trace.
  all: eexists; split; [reflexivity|]; split; [calls_made_from_hyps|].
  all: split; [simpl; repeat split; reflexivity|].
  all: split; [simpl; repeat split; reflexivity|].
  all: intros Hsave; try discriminate Hsave;
    split; simpl; repeat split; reflexivity.
Qed.

(** The same for the block of a file in the batch loop, whose test of a
    missing artifact is paid for by one more failed file. *)
Lemma file_body_calls_made {world} (env : Env world) out model save store f
    s r s' :
  file_body env out model save store f s = (r, s') ->
  exists evs,
    new_events s s' evs /\
    calls_made env (st_world s) evs (st_world s') /\
    written_next result_of_normalizer (artifact out f "_processed.json")
      false evs /\
    written_next result_of_sink (artifact out f "_db_result.json") true
      evs /\
    (save = true ->
     written_next result_of_recognizer (artifact out f "_entities.json")
       false evs) /\
    match r with
    | Ret _ => missing_tests evs <= failed (st_locals s') - failed (st_locals s)
    | Raise _ => missing_tests evs = 0
    end.
Proof.
  intros H. unfold artifact, base_name_of.
  unfold_script. simpl in H.
  repeat case_step H.
  all: match goal with
       | E : negb ?x = _ |- _ => destruct x eqn:?; try discriminate E
       end.
  all: finish_run H.
  all: eexists; split; [reflexivity|]; split; [calls_made_from_hyps|].
  all: split; [simpl; repeat split; reflexivity|].
  all: split; [simpl; repeat split; reflexivity|].
  all: split;
    [intros Hsave; try discriminate Hsave; simpl; repeat split; reflexivity|].
  all: unfold missing_tests; cbn; try reflexivity; try lia.
Qed.

(** One iteration of the loop: its calls are made on the environment and
    are the calls of its file. *)
Lemma file_iteration_calls_made {world} (env : Env world) out model save
    store f s r s' :
  file_iteration env out model save store f s = (r, s') ->
  exists evs,
    new_events s s' evs /\
    calls_made env (st_world s) evs (st_world s') /\
    file_calls out store f evs /\
    (r = Ret tt ->
     missing_tests evs <= failed (st_locals s') - failed (st_locals s)).
Proof.
  intros H.
  pose proof (file_iteration_spec _ _ _ _ _ _ _ H) as (evs & Hev & Hck & _).
  pose proof (file_iteration_calls _ _ _ _ _ _ _ H)
    as (evs1 & Hev1 & C1 & C2 & C3 & C4 & C5 & C6 & _).
  rewrite <- (new_events_inj Hev Hev1) in *. clear Hev1 evs1.
  exists evs. split; [exact Hev|].
  assert (Hcalls : file_calls out store f evs)
    by (unfold file_calls; repeat (split; [assumption|]); assumption).
  unfold file_iteration, try_except_Exception in H.
  destruct (file_body env out model save store f s) as [[u|e] s1] eqn:E.
  - inversion H; subst; clear H.
    apply file_body_calls_made in E.
    destruct E as (evs2 & Hev2 & Hmade & _ & _ & _ & Hmiss).
    rewrite <- (new_events_inj Hev Hev2) in *.
    split; [exact Hmade|]. split; [exact Hcalls|]. intros _. exact Hmiss.
  - pose proof (file_body_spec _ _ _ _ _ _ _ E) as (_ & _ & _ & _ & _ & Hsame).
    apply file_body_calls_made in E.
    destruct E as (evs2 & Hev2 & Hmade & _ & _ & _ & Hmiss).
    destruct (is_Exception e).
    + unfold incr_failed, update_locals in H. inversion H; subst; clear H.
      unfold new_events in Hev, Hev2. cbn [st_trace] in Hev.
      rewrite Hev2 in Hev. apply app_inv_head in Hev. subst evs2.
      split; [exact Hmade|]. split; [exact Hcalls|]. intros _.
      cbn [st_locals failed]. rewrite Hmiss, Hsame. lia.
    + inversion H; subst; clear H.
      rewrite <- (new_events_inj Hev Hev2) in *.
      split; [exact Hmade|]. split; [exact Hcalls|]. discriminate.
Qed.

(** The loop: the trace is made of one segment of calls per file run, in
    the order of the files, each made on the environment in the world the
    one before left; when the loop returns it has run every file, and
    every test that found no artifact is counted in [failed]. *)
Lemma batch_loop_calls_made {world} (env : Env world) out model save store
    files :
  forall s r s',
    for_each files (file_iteration env out model save store) s = (r, s') ->
    exists done segments,
      new_events s s' (List.concat segments) /\
      calls_made env (st_world s) (List.concat segments) (st_world s') /\
      Forall2 (file_calls out store) done segments /\
      (exists rest, files = done ++ rest) /\
      (r = Ret tt ->
       done = files /\
       missing_tests (List.concat segments) <=
       failed (st_locals s') - failed (st_locals s)).
Proof.
  induction files as [|f files IH]; intros s r s' H.
  - inversion H; subst; clear H. exists [], [].
    split; [apply new_events_refl|]. split; [reflexivity|].
    split; [constructor|]. split; [exists []; reflexivity|].
    intros _. split; [reflexivity|]. cbn. lia.
  - cbn [for_each] in H. rewrite bind_run in H.
    destruct (file_iteration env out model save store f s) as [[u|e] s1] eqn:E;
      apply file_iteration_calls_made in E;
      destruct E as (evs1 & Hev1 & Hmade1 & Hcalls1 & Hmiss1).
    + destruct u. specialize (Hmiss1 eq_refl). apply IH in H.
      destruct H as (done & segments & Hev2 & Hmade2 & Hall & [rest Hrest] &
                     Hret).
      exists (f :: done), (evs1 :: segments). cbn [List.concat].
      split; [eapply new_events_trans; eassumption|].
      split; [eapply calls_made_app; eassumption|].
      split; [constructor; assumption|].
      split; [exists rest; rewrite Hrest; reflexivity|].
      intros Hr. destruct (Hret Hr) as [Hdone Hmiss2].
      split; [rewrite Hdone; reflexivity|].
      rewrite missing_tests_app. lia.
    + inversion H; subst; clear H.
      exists [f], [evs1]. cbn [List.concat]. rewrite app_nil_r.
      split; [exact Hev1|]. split; [exact Hmade1|].
      split; [constructor; [exact Hcalls1|constructor]|].
      split; [exists files; reflexivity|]. discriminate.
Qed.

(** A batch run over at least one file: the batch extractor is called on
    the environment with the stripped pattern, and the loop starts in the
    world it left. *)
Lemma process_directory_calls_made {world} (env : Env world) input_dir out
    model pat save store workers s w1 f fs r s' :
  os_makedirs env out (st_world s) = (Ret tt, w1) ->
  glob_glob env (path_join input_dir pat) w1 = Ret (f :: fs) ->
  process_directory env input_dir out model pat save store workers s =
    (r, s') ->
  exists b w2 done segments,
    process_pdf_batch env input_dir out workers (lstrip_star pat) true w1 =
      (b, w2) /\
    new_events s s'
      ([EvMakedirs out (Ret tt);
        EvGlob (path_join input_dir pat) (Ret (f :: fs));
        EvProcessPdfBatch input_dir out workers (lstrip_star pat) true b]
       ++ List.concat segments) /\
    calls_made env w2 (List.concat segments) (st_world s') /\
    Forall2 (file_calls out store) done segments /\
    (exists rest, f :: fs = done ++ rest) /\
    (forall e, b = Raise e -> r = Raise e /\ segments = []) /\
    (forall summary,
       r = Ret summary ->
       done = f :: fs /\
       summary =
         batch_summary (Z.of_nat (List.length (f :: fs))) (st_locals s') /\
       successful (st_locals s') + failed (st_locals s') =
         Z.of_nat (List.length (f :: fs)) /\
       checked_paths (List.concat segments) =
         map (fun g => artifact out g ".json") (f :: fs) /\
       missing_tests (List.concat segments) <= failed (st_locals s')).
Proof.
  intros Hmk Hgl H.
  rewrite (process_directory_run _ _ _ _ _ _ _ _ _ Hmk Hgl) in H.
  cbv zeta in H.
  destruct (process_pdf_batch env input_dir out workers (lstrip_star pat)
              true w1) as [[b|e] w2] eqn:Hb.
  - destruct (for_each _ _ _) as [r0 s3] eqn:E.
    assert (Hs3 : s3 = s') by (destruct r0; inversion H; reflexivity).
    subst s3.
    pose proof (batch_loop_calls_made _ _ _ _ _ _ _ E)
      as (done & segments & Hev & Hmade & Hall & Hrest & Hret).
    exists (Ret b), w2, done, segments. split; [reflexivity|].
    split.
    { unfold new_events, advance in *. cbn [st_trace] in Hev.
      rewrite Hev. rewrite <- !app_assoc. reflexivity. }
    split; [exact Hmade|]. split; [exact Hall|]. split; [exact Hrest|].
    split; [discriminate|].
    intros summary Hr. subst r. destruct r0 as [u|e]; [|discriminate H].
    destruct u. inversion H; subst summary; clear H.
    destruct (Hret eq_refl) as [Hdone Hmiss].
    pose proof (batch_loop_spec _ _ _ _ _ _ _ E) as (evs & Hev' & Hck & Hsum).
    rewrite (new_events_inj Hev' Hev) in Hck.
    cbn [advance st_locals zero_counters successful failed] in Hsum, Hmiss.
    split; [exact Hdone|]. split; [reflexivity|].
    split; [rewrite Hsum; reflexivity|]. split; [exact Hck|]. lia.
  - inversion H; subst; clear H.
    exists (Raise e), w2, [], []. split; [reflexivity|].
    split.
    { unfold new_events, advance. cbn [st_trace List.concat]. rewrite app_nil_r.
      reflexivity. }
    split; [reflexivity|]. split; [constructor|].
    split; [exists (f :: fs); reflexivity|].
    split; [intros e' He'; inversion He'; split; reflexivity|discriminate].
Qed.

(** ** Batch runs and artifacts, call by call *)

(** C1: a batch run that completes over a non-empty enumeration returns a
    summary whose [file_count] is the number of files enumerated and whose
    [successful] and [failed] add up to it.  The calls of the run are made
    on the environment; among them the extraction artifact of every
    enumerated file is tested, in order, and every test that finds no
    artifact is counted in the summary's [failed].  An iteration whose
    extraction artifact is missing adds one to [failed] and does nothing
    else. *)
Theorem batch_counts_add_up {world} (env : Env world) input_dir out model pat
    save store workers s w1 files summary s' :
  os_makedirs env out (st_world s) = (Ret tt, w1) ->
  glob_glob env (path_join input_dir pat) w1 = Ret files ->
  files <> [] ->
  process_directory env input_dir out model pat save store workers s =
    (Ret summary, s') ->
  (exists l evs,
     summary = batch_summary (Z.of_nat (List.length files)) l /\
     successful l + failed l = Z.of_nat (List.length files) /\
     new_events s s' evs /\
     calls_made env (st_world s) evs (st_world s') /\
     checked_paths evs = map (fun f => artifact out f ".json") files /\
     missing_tests evs <= failed l) /\
  (forall f t,
     os_path_exists env (artifact out f ".json") (st_world t) = false ->
     file_iteration env out model save store f t =
       (Ret tt,
        advance t (st_world t) [EvExists (artifact out f ".json") false]
          (set_failed (st_locals t) (failed (st_locals t) + 1)))).
Proof.
  intros Hmk Hgl Hne H. split.
  - destruct files as [|f fs]; [congruence|].
    pose proof (process_directory_calls_made _ _ _ _ _ _ _ _ _ Hmk Hgl H)
      as (b & w2 & done & segments & Hb & Hev & Hmade & _ & _ & Hraise & Hret).
    destruct b as [b|e]; [|destruct (Hraise e eq_refl); discriminate].
    destruct (Hret summary eq_refl) as (_ & Hsum & Hadd & Hck & Hmiss).
    exists (st_locals s'). eexists. split; [exact Hsum|].
    split; [exact Hadd|]. split; [exact Hev|]. split.
    { cbn [app calls_made call_made]. exists w1. split; [exact Hmk|].
      exists w1. split; [split; [exact Hgl|reflexivity]|].
      exists w2. split; [exact Hb | exact Hmade]. }
    split.
    { rewrite checked_paths_app. exact Hck. }
    rewrite missing_tests_app. exact Hmiss.
  - intros f t Hf. unfold artifact, base_name_of in *. unfold_script.
    rewrite Hf. reflexivity.
Qed.

(** C10: the batch extractor receives the pattern stripped of its leading
    asterisks, while the enumeration used the pattern as given; a pattern
    that begins with an asterisk is therefore forwarded changed.  The call
    recorded is the call of the batch extractor of the environment, made in
    the world the enumeration left; the loop runs in the world it leaves,
    and does not run when it raises. *)
Theorem batch_extractor_gets_stripped_pattern {world} (env : Env world)
    input_dir out model pat save store workers s w1 f fs r s' :
  os_makedirs env out (st_world s) = (Ret tt, w1) ->
  glob_glob env (path_join input_dir pat) w1 = Ret (f :: fs) ->
  process_directory env input_dir out model pat save store workers s =
    (r, s') ->
  (exists b w2 rest,
     process_pdf_batch env input_dir out workers (lstrip_star pat) true w1 =
       (b, w2) /\
     new_events s s'
       ([EvMakedirs out (Ret tt);
         EvGlob (path_join input_dir pat) (Ret (f :: fs));
         EvProcessPdfBatch input_dir out workers (lstrip_star pat) true b]
        ++ rest) /\
     calls_made env w2 rest (st_world s') /\
     (forall e, b = Raise e -> r = Raise e /\ rest = [])) /\
  (exists n, pat = (stars n ++ lstrip_star pat)%string) /\
  starts_with_star (lstrip_star pat) = false /\
  (starts_with_star pat = true -> lstrip_star pat <> pat) /\
  lstrip_star "*.pdf" = ".pdf".
Proof.
  intros Hmk Hgl H. split; [|split; [apply lstrip_star_stars|split;
    [apply lstrip_star_no_star|split;
      [apply lstrip_star_changes|reflexivity]]]].
  pose proof (process_directory_calls_made _ _ _ _ _ _ _ _ _ Hmk Hgl H)
    as (b & w2 & done & segments & Hb & Hev & Hmade & _ & _ & Hraise & _).
  exists b, w2, (List.concat segments).
  split; [exact Hb|]. split; [exact Hev|]. split; [exact Hmade|].
  intros e He. destruct (Hraise e He) as [Hr Hseg]. split; [exact Hr|].
  rewrite Hseg. reflexivity.
Qed.

(** C6: the artifacts written.  A single-document run writes, in this
    order, [<base>_text.json] and [<base>_entities.json] when intermediates
    are requested, [<base>_processed.json] always, and
    [<base>_db_result.json] when storage is requested, whatever the outcome
    says; the block of a file in the batch loop writes the same list without
    [<base>_text.json], and nothing when the extraction artifact is missing.
    The writes are calls of [json_dump] of the environment, each made in
    the world the call before left.  Once the normalizer has returned, the
    very next call writes its result to [<base>_processed.json]; once the
    storage sink has returned, the very next call writes its outcome to
    [<base>_db_result.json]; and when intermediates are requested the
    results of the extractor and of the recognizer are written likewise.
    A run that stops early has written an initial part of its list, and
    never another name. *)
Theorem artifacts_written {world} (env : Env world) out model save store :
  (forall p s r s' evs,
     process_single_pdf env p out model save store s = (r, s') ->
     new_events s s' evs ->
     calls_made env (st_world s) evs (st_world s') /\
     written_next result_of_normalizer (artifact out p "_processed.json")
       false evs /\
     written_next result_of_sink (artifact out p "_db_result.json") true
       evs /\
     (save = true ->
      written_next result_of_extractor (artifact out p "_text.json") false
        evs /\
      written_next result_of_recognizer (artifact out p "_entities.json")
        false evs) /\
     (exists rest,
        single_artifacts out p save store = dumped_paths evs ++ rest) /\
     (forall summary,
        r = Ret summary ->
        dumped_paths evs = single_artifacts out p save store)) /\
  (forall f s r s' evs,
     file_body env out model save store f s = (r, s') ->
     new_events s s' evs ->
     calls_made env (st_world s) evs (st_world s') /\
     written_next result_of_normalizer (artifact out f "_processed.json")
       false evs /\
     written_next result_of_sink (artifact out f "_db_result.json") true
       evs /\
     (save = true ->
      written_next result_of_recognizer (artifact out f "_entities.json")
        false evs) /\
     (exists rest,
        batch_artifacts out f save store = dumped_paths evs ++ rest) /\
     (os_path_exists env (artifact out f ".json") (st_world s) = false ->
      dumped_paths evs = []) /\
     (r = Ret tt ->
      os_path_exists env (artifact out f ".json") (st_world s) = true ->
      dumped_paths evs = batch_artifacts out f save store)).
Proof.
  split.
  - intros p s r s' evs H Hev.
    pose proof (single_run_calls_made _ _ _ _ _ _ _ H)
      as (evs0 & Hev0 & Hmade & Hnorm & Hsink & Hsave).
    rewrite <- (new_events_inj Hev Hev0) in *.
    split; [exact Hmade|]. split; [exact Hnorm|]. split; [exact Hsink|].
    split; [exact Hsave|].
    apply single_run_spec in H.
    destruct H as (evs' & Hev' & Hpre & _ & Hr).
    rewrite (new_events_inj Hev Hev'). split; [exact Hpre|].
    intros summary ->. destruct Hr as (? & ? & ? & ? & -> & _).
    apply dumped_single_events.
  - intros f s r s' evs H Hev.
    pose proof (file_body_calls_made _ _ _ _ _ _ _ H)
      as (evs0 & Hev0 & Hmade & Hnorm & Hsink & Hsave & _).
    rewrite <- (new_events_inj Hev Hev0) in *.
    split; [exact Hmade|]. split; [exact Hnorm|]. split; [exact Hsink|].
    split; [exact Hsave|].
    apply file_body_spec in H.
    destruct H as (evs' & Hev' & _ & Hpre & Hmiss & Hr).
    rewrite (new_events_inj Hev Hev'). split; [exact Hpre|].
    split; [exact Hmiss|]. intros ->. destruct Hr as [Hall _]. exact Hall.
Qed.

(** X8: the calls of a batch run over at least one file: the
    single-document extractor is never called and the batch extractor
    exactly once; after it the trace is made of one segment per file run,
    in the order of the enumeration, and the segment of a file tests its
    extraction artifact and holds at most one call of the recognizer, a
    call of the normalizer only after one of the recognizer, a call of the
    storage sink only after one of the normalizer, and none of the storage
    sink when storage is not requested.  A run that returns has run every
    file. *)
Theorem batch_call_counts {world} (env : Env world) input_dir out model pat
    save store workers s w1 f fs r s' evs :
  os_makedirs env out (st_world s) = (Ret tt, w1) ->
  glob_glob env (path_join input_dir pat) w1 = Ret (f :: fs) ->
  process_directory env input_dir out model pat save store workers s =
    (r, s') ->
  new_events s s' evs ->
  (count_events is_extractor_call evs = 0%nat /\
   count_events is_batch_extractor_call evs = 1%nat /\
   (count_events is_recognizer_call evs <= List.length (f :: fs))%nat /\
   (count_events is_normalizer_call evs <=
    count_events is_recognizer_call evs)%nat /\
   (count_events is_store_call evs <=
    count_events is_normalizer_call evs)%nat /\
   (store = false -> count_events is_store_call evs = 0%nat)) /\
  exists b done segments,
    evs =
      [EvMakedirs out (Ret tt);
       EvGlob (path_join input_dir pat) (Ret (f :: fs));
       EvProcessPdfBatch input_dir out workers (lstrip_star pat) true b]
      ++ List.concat segments /\
    Forall2 (file_calls out store) done segments /\
    (exists rest, f :: fs = done ++ rest) /\
    (forall summary, r = Ret summary -> done = f :: fs).
Proof.
  intros Hmk Hgl H Hev. split.
  - rewrite (process_directory_run _ _ _ _ _ _ _ _ _ Hmk Hgl) in H.
    cbv zeta in H.
    destruct (process_pdf_batch _ _ _ _ _ _ _) as [[b|e] w2].
    + assert (Hloop : exists r0 s3,
        for_each (f :: fs) (file_iteration env out model save store)
          (advance s w2
             ([EvMakedirs out (Ret tt);
               EvGlob (path_join input_dir pat) (Ret (f :: fs))] ++
              [EvProcessPdfBatch input_dir out workers (lstrip_star pat)
                 true (Ret b)]) zero_counters) = (r0, s3) /\
        st_trace s' = st_trace s3).
      { destruct (for_each _ _ _) as [[u|e] s3]; inversion H; subst;
          eauto. }
      destruct Hloop as (r0 & s3 & Hloop & Htr).
      apply batch_loop_calls in Hloop.
      destruct Hloop as (evs2 & Hev2 & B1 & B2 & B3 & B4 & B5 & B6 & _).
      unfold new_events, advance in *. cbn [st_trace] in Hev2.
      rewrite Htr, Hev2, <- app_assoc in Hev. apply app_inv_head in Hev.
      subst evs. rewrite !count_events_app.
      repeat match goal with
             | |- context [count_events ?k (?a :: ?l)] =>
                 let n := eval cbv in (count_events k (a :: l)) in
                 change (count_events k (a :: l)) with n
             end.
      split; [lia|]. split; [lia|]. split; [lia|]. split; [lia|].
      split; [lia|]. intros Hst. rewrite (B6 Hst). reflexivity.
    + inversion H; subst; clear H. unfold new_events, advance in Hev.
      cbn [st_trace] in Hev. apply app_inv_head in Hev. subst evs.
      cbn. repeat split; lia.
  - pose proof (process_directory_calls_made _ _ _ _ _ _ _ _ _ Hmk Hgl H)
      as (b & w2 & done & segments & _ & Hev' & _ & Hall & Hrest & _ & Hret).
    exists b, done, segments.
    split; [exact (new_events_inj Hev Hev')|]. split; [exact Hall|].
    split; [exact Hrest|]. intros summary Hr.
    destruct (Hret summary Hr) as [Hdone _]. exact Hdone.
Qed.

(** ** The database check and its connection *)



(** ** Runs in the simulated environment, call by call *)

(** The batch of three files whose second artifact is missing: the counts
    add up to 3, the three artifacts are tested in order, the one test that
    finds nothing is counted failed, and the iteration of the second file
    counts it failed. *)
Lemma batch_counts_add_up_witness :
  (exists l evs,
     fst (Sim.run_batch Sim.batch_missing_b false true) =
       Ret (batch_summary 3 l) /\
     successful l + failed l = 3 /\
     st_trace (snd (Sim.run_batch Sim.batch_missing_b false true)) = evs /\
     calls_made (Sim.env Sim.batch_missing_b) []
       evs (st_world (snd (Sim.run_batch Sim.batch_missing_b false true))) /\
     checked_paths evs = ["out/a.json"; "out/b.json"; "out/c.json"] /\
     missing_tests evs <= failed l) /\
  fst (Sim.run_file Sim.batch_missing_b false true "in/b.pdf") = Ret tt /\
  st_locals (snd (Sim.run_file Sim.batch_missing_b false true "in/b.pdf")) =
    {| successful := 0; failed := 1; products_found := 0 |}.
Proof.
  assert (Hrun :
    process_directory (Sim.env Sim.batch_missing_b) "in" "out" None "*.pdf"
      false true 4 Sim.start =
    (Ret (batch_summary 3
            {| successful := 2; failed := 1; products_found := 2 |}),
     snd (Sim.run_batch Sim.batch_missing_b false true)))
    by (vm_compute; reflexivity).
  destruct (@batch_counts_add_up _ (Sim.env Sim.batch_missing_b) "in" "out"
              None "*.pdf" false true 4 Sim.start [] Sim.three_files _ _
              eq_refl eq_refl ltac:(discriminate) Hrun)
    as [(l & evs & Hs & Hl & Hev & Hmade & Hck & Hfail) Hmiss].
  split.
  - exists l, evs. split.
    { unfold Sim.run_batch. rewrite Hrun. cbn [fst]. rewrite Hs.
      reflexivity. }
    split; [exact Hl|]. split; [exact Hev|]. split; [exact Hmade|].
    split; [rewrite Hck; reflexivity | exact Hfail].
  - unfold Sim.run_file.
    rewrite (Hmiss "in/b.pdf" (Sim.extracted Sim.batch_missing_b) eq_refl).
    split; reflexivity.
Defined.

(** Intermediates and storage requested: a document whose storage is
    rejected still gets its four artifacts, the last one written right
    after the storage sink returned; in the batch loop a file gets three,
    and a file without extraction artifact none. *)
Lemma artifacts_written_witness :
  dumped_paths (st_trace (snd (Sim.run_single Sim.single_rejected true true))) =
    ["out/acme_text.json"; "out/acme_entities.json";
     "out/acme_processed.json"; "out/acme_db_result.json"] /\
  written_next result_of_sink "out/acme_db_result.json" true
    (st_trace (snd (Sim.run_single Sim.single_rejected true true))) /\
  calls_made (Sim.env Sim.single_rejected) []
    (st_trace (snd (Sim.run_single Sim.single_rejected true true)))
    (st_world (snd (Sim.run_single Sim.single_rejected true true))) /\
  dumped_paths
    (st_trace (snd (Sim.run_file Sim.batch_rejected_b true true "in/b.pdf"))) =
    ["out/b_entities.json"; "out/b_processed.json"; "out/b_db_result.json"] /\
  dumped_paths
    (st_trace (snd (Sim.run_file Sim.batch_missing_b true true "in/b.pdf"))) =
    [].
Proof.
  destruct (@artifacts_written _ (Sim.env Sim.single_rejected) "out" None
              true true) as [Hsingle _].
  destruct (@artifacts_written _ (Sim.env Sim.batch_rejected_b) "out" None
              true true) as [_ Hbatch].
  destruct (@artifacts_written _ (Sim.env Sim.batch_missing_b) "out" None
              true true) as [_ Hmiss].
  destruct (Hsingle "docs/acme.pdf" Sim.start
              (fst (Sim.run_single Sim.single_rejected true true))
              (snd (Sim.run_single Sim.single_rejected true true))
              (st_trace (snd (Sim.run_single Sim.single_rejected true true)))
              (surjective_pairing _) eq_refl)
    as (Hmade & _ & Hsink & _ & _ & Hall).
  split; [|split; [exact Hsink|split; [exact Hmade|split]]].
  - erewrite Hall; [reflexivity | vm_compute; reflexivity].
  - pose (body :=
      file_body (Sim.env Sim.batch_rejected_b) "out" None true true
        "in/b.pdf" (Sim.extracted Sim.batch_rejected_b)).
    destruct (Hbatch "in/b.pdf" (Sim.extracted Sim.batch_rejected_b)
                (fst body) (snd body) (st_trace (snd body))
                (surjective_pairing body) eq_refl)
      as (_ & _ & _ & _ & _ & _ & Hall').
    change (st_trace (snd (Sim.run_file Sim.batch_rejected_b true true
                             "in/b.pdf")))
      with (st_trace (snd body)).
    rewrite Hall'; reflexivity.
  - pose (body :=
      file_body (Sim.env Sim.batch_missing_b) "out" None true true
        "in/b.pdf" (Sim.extracted Sim.batch_missing_b)).
    destruct (Hmiss "in/b.pdf" (Sim.extracted Sim.batch_missing_b)
                (fst body) (snd body) (st_trace (snd body))
                (surjective_pairing body) eq_refl)
      as (_ & _ & _ & _ & _ & Hnone & _).
    change (st_trace (snd (Sim.run_file Sim.batch_missing_b true true
                             "in/b.pdf")))
      with (st_trace (snd body)).
    apply Hnone. reflexivity.
Defined.

(** The default pattern is enumerated as given and forwarded without its
    asterisk to the batch extractor of the environment. *)
Lemma batch_extractor_gets_stripped_pattern_witness :
  exists b w2 rest,
    process_pdf_batch (Sim.env Sim.batch_missing_b) "in" "out" 4 ".pdf" true
      [] = (b, w2) /\
    st_trace (snd (Sim.run_batch Sim.batch_missing_b false true)) =
      [EvMakedirs "out" (Ret tt);
       EvGlob "in/*.pdf" (Ret Sim.three_files);
       EvProcessPdfBatch "in" "out" 4 ".pdf" true b] ++ rest /\
    calls_made (Sim.env Sim.batch_missing_b) w2 rest
      (st_world (snd (Sim.run_batch Sim.batch_missing_b false true))).
Proof.
  unfold Sim.run_batch.
  set (run := process_directory (Sim.env Sim.batch_missing_b) "in" "out"
                None "*.pdf" false true 4 Sim.start).
  assert (Hrun : process_directory (Sim.env Sim.batch_missing_b) "in" "out"
                   None "*.pdf" false true 4 Sim.start = (fst run, snd run))
    by apply surjective_pairing.
  destruct (@batch_extractor_gets_stripped_pattern _
              (Sim.env Sim.batch_missing_b) "in" "out" None "*.pdf" false
              true 4 Sim.start [] "in/a.pdf" ["in/b.pdf"; "in/c.pdf"]
              (fst run) (snd run) eq_refl eq_refl Hrun)
    as [(b & w2 & rest & Hb & Hev & Hmade & _) _].
  exists b, w2, rest. split; [exact Hb|]. split; [exact Hev | exact Hmade].
Defined.

(** Two files with storage: one call of the batch extractor, two calls of
    each later stage, none of the single-document extractor, and after the
    setup one segment for each of the two files. *)
Lemma batch_call_counts_witness :
  let evs := st_trace (snd (Sim.run_batch Sim.batch_rejected_b false true)) in
  count_events is_extractor_call evs = 0%nat /\
  count_events is_batch_extractor_call evs = 1%nat /\
  (count_events is_recognizer_call evs <= 2)%nat /\
  (count_events is_store_call evs <= count_events is_normalizer_call evs)%nat /\
  exists b segments,
    evs =
      [EvMakedirs "out" (Ret tt);
       EvGlob "in/*.pdf" (Ret ["in/a.pdf"; "in/b.pdf"]);
       EvProcessPdfBatch "in" "out" 4 ".pdf" true b] ++
      List.concat segments /\
    Forall2 (file_calls "out" true) ["in/a.pdf"; "in/b.pdf"] segments.
Proof.
  cbv zeta. unfold Sim.run_batch.
  set (run := process_directory (Sim.env Sim.batch_rejected_b) "in" "out"
                None "*.pdf" false true 4 Sim.start).
  assert (Hfst : exists summary, fst run = Ret summary)
    by (vm_compute; eexists; reflexivity).
  destruct Hfst as [summary Hfst].
  destruct (@batch_call_counts _ (Sim.env Sim.batch_rejected_b) "in" "out"
              None "*.pdf" false true 4 Sim.start [] "in/a.pdf" ["in/b.pdf"]
              (fst run) (snd run) (st_trace (snd run)) eq_refl eq_refl
              (surjective_pairing run) eq_refl)
    as [(H1 & H2 & H3 & _ & H5 & _)
        (b & done & segments & Hev & Hall & _ & Hdone)].
  split; [exact H1|]. split; [exact H2|]. split; [exact H3|].
  split; [exact H5|].
  exists b, segments. split; [exact Hev|].
  rewrite <- (Hdone summary Hfst). exact Hall.
Defined.
